(** * ghfilter: conditions and filters over GitHub events

    A shallow embedding of [Condition.Matches] and [Filter.Matches] of the
    Go package [ghfilter], in the revision whose [Condition] has the
    [Negate] field and the regexp sub-checks, and the properties of the
    matching engine.

    Go strings are byte sequences: they are [string]s here (lists of
    [ascii] bytes).  Go's [int] only takes part in comparisons, so it is a
    [Z].  A nillable pointer is an [option]; the event passed to [Matches]
    is taken to be non-nil.  The three packages the code calls into
    ([encoding/json], [regexp], [strings]) are gathered in a record
    [GoLib]: [Matches] is written over an arbitrary [GoLib], and the module
    [GoStd] builds one to run the payloads of the repository's tests.
    The two earlier revisions of the package are embedded in [Rev0] and
    [Rev1] and related to the current one. *)

From Stdlib Require Import Bool List String Ascii ZArith Lia Permutation DecimalString.
Import ListNotations.

Local Open Scope string_scope.
Local Open Scope bool_scope.

(** ** The event, as the matching code reads it (go-github's [Event]) *)

Module github.

Record Organization := { Organization_ID : option Z }.   (* ID *int *)
Record Repository := { Repository_ID : option Z }.       (* ID *int *)

Record Event := {
  Type_ : option string;          (* Type *string *)
  Public : option bool;           (* Public *bool *)
  RawPayload : option string;     (* RawPayload *json.RawMessage *)
  Repo : option Repository;       (* Repo *Repository *)
  Org : option Organization       (* Org *Organization *)
}.

(** The generated accessors: the zero value behind a nil pointer. *)
Definition GetType (e : Event) : string :=
  match Type_ e with Some t => t | None => "" end.

Definition GetPublic (e : Event) : bool :=
  match Public e with Some p => p | None => false end.

Definition Organization_GetID (o : Organization) : Z :=
  match Organization_ID o with Some i => i | None => 0%Z end.

Definition Repository_GetID (r : Repository) : Z :=
  match Repository_ID r with Some i => i | None => 0%Z end.

End github.

(** ** The library calls of [Condition.Matches]

    [json.Unmarshal] is called on the raw payload at five
    anonymous struct types, each with one path of interest; the field
    [Unmarshal_x] is that call, [None] when [err != nil] and otherwise the
    value left at the path.  [regexp_Compile] is [None] when [err != nil]. *)

Record GoLib := {
  Unmarshal_action : string -> option string;
  Unmarshal_issue_labels : string -> option (list string);
  Unmarshal_issue_milestone_title : string -> option string;
  Unmarshal_issue_title : string -> option string;
  Unmarshal_issue_body : string -> option string;
  strings_ToLower : string -> string;
  Regexp : Type;
  regexp_Compile : string -> option Regexp;
  Regexp_MatchString : Regexp -> string -> bool
}.

(** ** Condition and Filter *)

Record Condition := {
  Negate : bool;
  Type_ : string;
  PayloadAction : string;
  PayloadIssueLabel : string;
  PayloadIssueMilestoneTitle : string;
  PayloadIssueTitleRegexp : string;
  PayloadIssueBodyRegexp : string;
  ComparePublic : bool;
  Public : bool;
  OrganizationID : Z;
  RepositoryID : Z
}.

Record Filter := { Conditions : list Condition }.

(** The zero value of [Condition]. *)
Definition Condition_zero : Condition :=
  {| Negate := false; Type_ := ""; PayloadAction := ""; PayloadIssueLabel := "";
     PayloadIssueMilestoneTitle := ""; PayloadIssueTitleRegexp := "";
     PayloadIssueBodyRegexp := ""; ComparePublic := false; Public := false;
     OrganizationID := 0; RepositoryID := 0 |}.

Definition with_Negate (n : bool) (c : Condition) : Condition :=
  {| Negate := n; Type_ := Type_ c; PayloadAction := PayloadAction c;
     PayloadIssueLabel := PayloadIssueLabel c;
     PayloadIssueMilestoneTitle := PayloadIssueMilestoneTitle c;
     PayloadIssueTitleRegexp := PayloadIssueTitleRegexp c;
     PayloadIssueBodyRegexp := PayloadIssueBodyRegexp c;
     ComparePublic := ComparePublic c; Public := Public c;
     OrganizationID := OrganizationID c; RepositoryID := RepositoryID c |}.

(** ** Early return

    Each [if] statement of [Matches] either returns or lets control reach
    the next statement. *)

Inductive flow := Next | Return (b : bool).

Definition and_then (s : flow) (rest : flow) : flow :=
  match s with
  | Next => rest
  | Return b => Return b
  end.

Notation "s ;; rest" := (and_then s rest) (at level 61, right associativity).

Section Matching.

Variable L : GoLib.

(** [if c.Type != "" && event.GetType() != c.Type { return c.Negate }] *)
Definition check_Type (c : Condition) (event : github.Event) : flow :=
  if negb (Type_ c =? "") && negb (github.GetType event =? Type_ c)
  then Return (Negate c)
  else Next.

(** [if c.PayloadAction != "" { ... }] *)
Definition check_PayloadAction (c : Condition) (event : github.Event) : flow :=
  if negb (PayloadAction c =? "") then
    match github.RawPayload event with
    | None => Return false
    | Some raw =>
        match Unmarshal_action L raw with
        | None => Return false
        | Some payload_Action =>
            if negb (strings_ToLower L payload_Action =? strings_ToLower L (PayloadAction c))
            then Return (Negate c)
            else Next
        end
    end
  else Next.

(** The loop [for _, label := range payload.Issue.Labels] over [found]. *)
Definition label_found (want : string) (labels : list string) : bool :=
  fold_left
    (fun found label => if strings_ToLower L label =? strings_ToLower L want then true else found)
    labels false.

(** [if c.PayloadIssueLabel != "" { ... }] *)
Definition check_PayloadIssueLabel (c : Condition) (event : github.Event) : flow :=
  if negb (PayloadIssueLabel c =? "") then
    match github.RawPayload event with
    | None => Return false
    | Some raw =>
        match Unmarshal_issue_labels L raw with
        | None => Return false
        | Some payload_Issue_Labels =>
            let found := label_found (PayloadIssueLabel c) payload_Issue_Labels in
            if negb found then Return (Negate c) else Next
        end
    end
  else Next.

(** [if c.PayloadIssueMilestoneTitle != "" { ... }] *)
Definition check_PayloadIssueMilestoneTitle (c : Condition) (event : github.Event) : flow :=
  if negb (PayloadIssueMilestoneTitle c =? "") then
    match github.RawPayload event with
    | None => Return false
    | Some raw =>
        match Unmarshal_issue_milestone_title L raw with
        | None => Return false
        | Some payload_Issue_Milestone_Title =>
            if negb (strings_ToLower L payload_Issue_Milestone_Title
                       =? strings_ToLower L (PayloadIssueMilestoneTitle c))
            then Return (Negate c)
            else Next
        end
    end
  else Next.

(** [if c.PayloadIssueTitleRegexp != "" { ... }] *)
Definition check_PayloadIssueTitleRegexp (c : Condition) (event : github.Event) : flow :=
  if negb (PayloadIssueTitleRegexp c =? "") then
    match github.RawPayload event with
    | None => Return false
    | Some raw =>
        match Unmarshal_issue_title L raw with
        | None => Return false
        | Some payload_Issue_Title =>
            match regexp_Compile L (PayloadIssueTitleRegexp c) with
            | None => Return false
            | Some re =>
                if negb (Regexp_MatchString L re payload_Issue_Title)
                then Return (Negate c)
                else Next
            end
        end
    end
  else Next.

(** [if c.PayloadIssueBodyRegexp != "" { ... }] *)
Definition check_PayloadIssueBodyRegexp (c : Condition) (event : github.Event) : flow :=
  if negb (PayloadIssueBodyRegexp c =? "") then
    match github.RawPayload event with
    | None => Return false
    | Some raw =>
        match Unmarshal_issue_body L raw with
        | None => Return false
        | Some payload_Issue_Body =>
            match regexp_Compile L (PayloadIssueBodyRegexp c) with
            | None => Return false
            | Some re =>
                if negb (Regexp_MatchString L re payload_Issue_Body)
                then Return (Negate c)
                else Next
            end
        end
    end
  else Next.

(** [if c.ComparePublic && event.GetPublic() != c.Public { return c.Negate }] *)
Definition check_Public (c : Condition) (event : github.Event) : flow :=
  if ComparePublic c && negb (Bool.eqb (github.GetPublic event) (Public c))
  then Return (Negate c)
  else Next.

(** [if c.OrganizationID != 0 &&
       (event.Org == nil || event.Org.GetID() != c.OrganizationID)] *)
Definition check_OrganizationID (c : Condition) (event : github.Event) : flow :=
  if negb (OrganizationID c =? 0)%Z
     && match github.Org event with
        | None => true
        | Some org => negb (github.Organization_GetID org =? OrganizationID c)%Z
        end
  then Return (Negate c)
  else Next.

(** [if c.RepositoryID != 0 &&
       (event.Repo == nil || event.Repo.GetID() != c.RepositoryID)] *)
Definition check_RepositoryID (c : Condition) (event : github.Event) : flow :=
  if negb (RepositoryID c =? 0)%Z
     && match github.Repo event with
        | None => true
        | Some repo => negb (github.Repository_GetID repo =? RepositoryID c)%Z
        end
  then Return (Negate c)
  else Next.

(** [func (c *Condition) Matches(event *github.Event) bool] *)
Definition Matches_flow (c : Condition) (event : github.Event) : flow :=
  check_Type c event ;;
  check_PayloadAction c event ;;
  check_PayloadIssueLabel c event ;;
  check_PayloadIssueMilestoneTitle c event ;;
  check_PayloadIssueTitleRegexp c event ;;
  check_PayloadIssueBodyRegexp c event ;;
  check_Public c event ;;
  check_OrganizationID c event ;;
  check_RepositoryID c event ;;
  Return (negb (Negate c)).

Definition Matches (c : Condition) (event : github.Event) : bool :=
  match Matches_flow c event with
  | Return b => b
  | Next => negb (Negate c)
  end.

(** [func (f *Filter) Matches(event *github.Event) bool]: the [range]
    loop, returning with its result the conditions it called [Matches]
    on, in order. *)
Fixpoint Filter_range (conditions : list Condition) (event : github.Event)
  : bool * list Condition :=
  match conditions with
  | [] => (true, [])
  | condition :: rest =>
      if negb (Matches condition event)
      then (false, [condition])
      else let (r, evaluated) := Filter_range rest event in
           (r, condition :: evaluated)
  end.

Definition Filter_Matches (f : Filter) (event : github.Event) : bool :=
  fst (Filter_range (Conditions f) event).

Definition Filter_evaluated (f : Filter) (event : github.Event) : list Condition :=
  snd (Filter_range (Conditions f) event).

End Matching.


(** ** The sub-checks, in the words of the specification

    The specification speaks of nine sub-checks evaluated in a fixed
    order, each of them unset or configured, and of a configured sub-check
    succeeding, failing its comparison on data that is present, lacking the
    data it requires, or (for a regexp) holding a malformed pattern.  The
    definitions of this section follow those words; they are compared with
    [Matches] in the theorems. *)

Inductive subcheck :=
| SubType
| SubPayloadAction
| SubPayloadIssueLabel
| SubPayloadIssueMilestoneTitle
| SubPayloadIssueTitleRegexp
| SubPayloadIssueBodyRegexp
| SubVisibility
| SubOrganizationID
| SubRepositoryID.

Definition evaluation_order : list subcheck :=
  [SubType; SubPayloadAction; SubPayloadIssueLabel; SubPayloadIssueMilestoneTitle;
   SubPayloadIssueTitleRegexp; SubPayloadIssueBodyRegexp;
   SubVisibility; SubOrganizationID; SubRepositoryID].

(** The sub-checks evaluated before [k]. *)
Definition before (k : subcheck) : list subcheck :=
  match k with
  | SubType => []
  | SubPayloadAction => [SubType]
  | SubPayloadIssueLabel => [SubType; SubPayloadAction]
  | SubPayloadIssueMilestoneTitle => [SubType; SubPayloadAction; SubPayloadIssueLabel]
  | SubPayloadIssueTitleRegexp =>
      [SubType; SubPayloadAction; SubPayloadIssueLabel; SubPayloadIssueMilestoneTitle]
  | SubPayloadIssueBodyRegexp =>
      [SubType; SubPayloadAction; SubPayloadIssueLabel; SubPayloadIssueMilestoneTitle;
       SubPayloadIssueTitleRegexp]
  | SubVisibility =>
      [SubType; SubPayloadAction; SubPayloadIssueLabel; SubPayloadIssueMilestoneTitle;
       SubPayloadIssueTitleRegexp; SubPayloadIssueBodyRegexp]
  | SubOrganizationID =>
      [SubType; SubPayloadAction; SubPayloadIssueLabel; SubPayloadIssueMilestoneTitle;
       SubPayloadIssueTitleRegexp; SubPayloadIssueBodyRegexp; SubVisibility]
  | SubRepositoryID =>
      [SubType; SubPayloadAction; SubPayloadIssueLabel; SubPayloadIssueMilestoneTitle;
       SubPayloadIssueTitleRegexp; SubPayloadIssueBodyRegexp; SubVisibility;
       SubOrganizationID]
  end.

(** The sub-checks evaluated after [k]. *)
Definition after (k : subcheck) : list subcheck :=
  skipn (S (List.length (before k))) evaluation_order.

(** A sub-check is configured when its field is not at the zero value
    (for the visibility, when [ComparePublic] is set). *)
Definition configured (c : Condition) (k : subcheck) : bool :=
  match k with
  | SubType => negb (Type_ c =? "")
  | SubPayloadAction => negb (PayloadAction c =? "")
  | SubPayloadIssueLabel => negb (PayloadIssueLabel c =? "")
  | SubPayloadIssueMilestoneTitle => negb (PayloadIssueMilestoneTitle c =? "")
  | SubPayloadIssueTitleRegexp => negb (PayloadIssueTitleRegexp c =? "")
  | SubPayloadIssueBodyRegexp => negb (PayloadIssueBodyRegexp c =? "")
  | SubVisibility => ComparePublic c
  | SubOrganizationID => negb (OrganizationID c =? 0)%Z
  | SubRepositoryID => negb (RepositoryID c =? 0)%Z
  end.

Definition payload_dependent (k : subcheck) : bool :=
  match k with
  | SubPayloadAction | SubPayloadIssueLabel | SubPayloadIssueMilestoneTitle
  | SubPayloadIssueTitleRegexp | SubPayloadIssueBodyRegexp => true
  | _ => false
  end.

Inductive verdict :=
| Succeeds            (* the data is present and the comparison holds *)
| Fails               (* the data is present and the comparison fails *)
| DataAbsent          (* the event lacks the data the sub-check requires *)
| PatternMalformed.   (* the data is present, the regexp does not compile *)

Definition compared (holds : bool) : verdict := if holds then Succeeds else Fails.

Section Verdicts.

Variable L : GoLib.

(** A payload sub-check requires the raw payload, decoded into the shape
    the sub-check expects. *)
Definition on_payload {A : Type} (decode : string -> option A) (compare : A -> verdict)
    (event : github.Event) : verdict :=
  match github.RawPayload event with
  | None => DataAbsent
  | Some raw =>
      match decode raw with
      | None => DataAbsent
      | Some a => compare a
      end
  end.

(** Equality ignoring case. *)
Definition equal_fold (a b : string) : bool :=
  strings_ToLower L a =? strings_ToLower L b.

(** A regexp sub-check searches the text for the pattern. *)
Definition searched (pattern text : string) : verdict :=
  match regexp_Compile L pattern with
  | None => PatternMalformed
  | Some re => compared (Regexp_MatchString L re text)
  end.

(** An ID sub-check requires the event's reference to be present. *)
Definition on_reference {R : Type} (ref : option R) (compare : R -> verdict) : verdict :=
  match ref with
  | None => DataAbsent
  | Some r => compare r
  end.

Definition verdict_of (c : Condition) (event : github.Event) (k : subcheck) : verdict :=
  match k with
  | SubType => compared (github.GetType event =? Type_ c)
  | SubPayloadAction =>
      on_payload (Unmarshal_action L)
        (fun action => compared (equal_fold action (PayloadAction c))) event
  | SubPayloadIssueLabel =>
      on_payload (Unmarshal_issue_labels L)
        (fun labels => compared (existsb (fun l => equal_fold l (PayloadIssueLabel c)) labels))
        event
  | SubPayloadIssueMilestoneTitle =>
      on_payload (Unmarshal_issue_milestone_title L)
        (fun title => compared (equal_fold title (PayloadIssueMilestoneTitle c))) event
  | SubPayloadIssueTitleRegexp =>
      on_payload (Unmarshal_issue_title L) (searched (PayloadIssueTitleRegexp c)) event
  | SubPayloadIssueBodyRegexp =>
      on_payload (Unmarshal_issue_body L) (searched (PayloadIssueBodyRegexp c)) event
  | SubVisibility => compared (Bool.eqb (github.GetPublic event) (Public c))
  | SubOrganizationID =>
      on_reference (github.Org event)
        (fun org => compared (github.Organization_GetID org =? OrganizationID c)%Z)
  | SubRepositoryID =>
      on_reference (github.Repo event)
        (fun repo => compared (github.Repository_GetID repo =? RepositoryID c)%Z)
  end.

(** A sub-check lets the evaluation go on when it is unset or succeeds. *)
Definition passes (c : Condition) (event : github.Event) (k : subcheck) : bool :=
  negb (configured c k)
  || match verdict_of c event k with Succeeds => true | _ => false end.

(** The evaluation reaches [k] when every sub-check before it passes. *)
Definition reaches (c : Condition) (event : github.Event) (k : subcheck) : bool :=
  forallb (passes c event) (before k).

(** The block of [Matches] that carries out sub-check [k]. *)
Definition check (k : subcheck) : Condition -> github.Event -> flow :=
  match k with
  | SubType => check_Type
  | SubPayloadAction => check_PayloadAction L
  | SubPayloadIssueLabel => check_PayloadIssueLabel L
  | SubPayloadIssueMilestoneTitle => check_PayloadIssueMilestoneTitle L
  | SubPayloadIssueTitleRegexp => check_PayloadIssueTitleRegexp L
  | SubPayloadIssueBodyRegexp => check_PayloadIssueBodyRegexp L
  | SubVisibility => check_Public
  | SubOrganizationID => check_OrganizationID
  | SubRepositoryID => check_RepositoryID
  end.

End Verdicts.

(** The blocks of the sub-checks [ks] one after the other, then [later]. *)
Definition sequence (L : GoLib) (c : Condition) (event : github.Event)
    (ks : list subcheck) (later : flow) : flow :=
  fold_right (fun k rest => check L k c event ;; rest) later ks.

Definition is_some {A : Type} (o : option A) : bool :=
  match o with Some _ => true | None => false end.

(** Does [json.Unmarshal] succeed on [raw] at the struct of sub-check [k]? *)
Definition decodes (L : GoLib) (k : subcheck) (raw : string) : bool :=
  match k with
  | SubPayloadAction => is_some (Unmarshal_action L raw)
  | SubPayloadIssueLabel => is_some (Unmarshal_issue_labels L raw)
  | SubPayloadIssueMilestoneTitle => is_some (Unmarshal_issue_milestone_title L raw)
  | SubPayloadIssueTitleRegexp => is_some (Unmarshal_issue_title L raw)
  | SubPayloadIssueBodyRegexp => is_some (Unmarshal_issue_body L raw)
  | _ => true
  end.

(** The event has a raw payload and it decodes for sub-check [k]. *)
Definition payload_decodes (L : GoLib) (event : github.Event) (k : subcheck) : bool :=
  match github.RawPayload event with
  | None => false
  | Some raw => decodes L k raw
  end.

(** The pattern a regexp sub-check holds. *)
Definition pattern_of (c : Condition) (k : subcheck) : string :=
  match k with
  | SubPayloadIssueTitleRegexp => PayloadIssueTitleRegexp c
  | SubPayloadIssueBodyRegexp => PayloadIssueBodyRegexp c
  | _ => ""
  end.

Definition regexp_subcheck (k : subcheck) : bool :=
  match k with
  | SubPayloadIssueTitleRegexp | SubPayloadIssueBodyRegexp => true
  | _ => false
  end.

(** What the block of a configured sub-check [k] does on each verdict, as
    the theorem [check_verdict] establishes: only the ID sub-checks answer
    an absent reference with [c.Negate]. *)
Definition flow_of (c : Condition) (k : subcheck) (v : verdict) : flow :=
  match v with
  | Succeeds => Next
  | Fails => Return (Negate c)
  | DataAbsent => Return (if payload_dependent k then false else Negate c)
  | PatternMalformed => Return false
  end.

(** ** A library instance to run payloads with

    The properties stated for every [GoLib] hold of the libraries the
    program is linked with.  To evaluate [Matches] on the payloads and
    patterns of the repository's tests, [GoStd.lib] implements the
    library calls:
    - [encoding/json]: the JSON grammar, string unquoting, and the
      decoder's rules for the five target structs (an absent key leaves
      the zero value, [null] stores nothing in a string or a struct, a
      value of another kind is an [UnmarshalTypeError] reported once the
      whole text is decoded, keys match field names up to case folding, a
      repeated key is decoded again into the same field);
    - [strings.ToLower] on ASCII text;
    - [regexp] for a fragment of the pattern syntax (see [Compile]).
    Where releases of Go differ the instance follows those of the
    repository's time: JSON texts and patterns may nest to any depth, and
    a slice that is decoded into twice keeps its backing array. *)

Module GoStd.

Definition code (c : ascii) : N := N_of_ascii c.

Definition between (lo hi : N) (c : ascii) : bool :=
  ((lo <=? code c) && (code c <=? hi))%N.

Definition is_upper (c : ascii) : bool := between 65 90 c.
Definition is_lower (c : ascii) : bool := between 97 122 c.
Definition is_digit (c : ascii) : bool := between 48 57 c.

Definition lower_byte (c : ascii) : ascii :=
  if is_upper c then ascii_of_N (code c + 32) else c.

Definition upper_byte (c : ascii) : ascii :=
  if is_lower c then ascii_of_N (code c - 32) else c.

(** [strings.ToLower] on ASCII text.  Bytes from 0x80 up are kept as they
    are: the Unicode case tables are not part of this instance. *)
Fixpoint ToLower (s : string) : string :=
  match s with
  | "" => ""
  | String c t => String (lower_byte c) (ToLower t)
  end.

(** *** UTF-8 ([unicode/utf8]) *)

Definition is_cont (c : ascii) : bool := between 128 191 c.

(** Width of the encoding that starts [s], [0] when [utf8.DecodeRune]
    answers [(RuneError, 1)]. *)
Definition utf8_width (s : string) : nat :=
  match s with
  | "" => 0
  | String c0 t0 =>
      if (code c0 <? 128)%N then 1
      else if between 194 223 c0 then
        match t0 with
        | String c1 _ => if is_cont c1 then 2 else 0
        | _ => 0
        end
      else if between 224 239 c0 then
        match t0 with
        | String c1 (String c2 _) =>
            let lo := if (code c0 =? 224)%N then 160%N else 128%N in
            let hi := if (code c0 =? 237)%N then 159%N else 191%N in
            if between lo hi c1 && is_cont c2 then 3 else 0
        | _ => 0
        end
      else if between 240 244 c0 then
        match t0 with
        | String c1 (String c2 (String c3 _)) =>
            let lo := if (code c0 =? 240)%N then 144%N else 128%N in
            let hi := if (code c0 =? 244)%N then 143%N else 191%N in
            if between lo hi c1 && is_cont c2 && is_cont c3 then 4 else 0
        | _ => 0
        end
      else 0
  end.

Definition byte (n : N) : ascii := ascii_of_N n.

(** [utf8.EncodeRune] of U+FFFD. *)
Definition replacement : string :=
  String (byte 239) (String (byte 191) (String (byte 189) "")).

(** [utf8.EncodeRune]; a surrogate or a value past U+10FFFF is written as
    U+FFFD. *)
Definition EncodeRune (r : N) : string :=
  (if r <? 128 then String (byte r) ""
   else if r <? 2048 then
     String (byte (192 + r / 64)) (String (byte (128 + r mod 64)) "")
   else if (55296 <=? r) && (r <? 57344) then replacement
   else if r <? 65536 then
     String (byte (224 + r / 4096))
       (String (byte (128 + (r / 64) mod 64)) (String (byte (128 + r mod 64)) ""))
   else if r <? 1114112 then
     String (byte (240 + r / 262144))
       (String (byte (128 + (r / 4096) mod 64))
          (String (byte (128 + (r / 64) mod 64)) (String (byte (128 + r mod 64)) "")))
   else replacement)%N.

Fixpoint take (n : nat) (s : string) : string :=
  match n, s with
  | S k, String c t => String c (take k t)
  | _, _ => ""
  end.

(** *** JSON text ([encoding/json]'s scanner) *)

Definition dquote : ascii := byte 34.
Definition backslash : ascii := byte 92.

Definition is_space (c : ascii) : bool :=
  (code c =? 32)%N || (code c =? 9)%N || (code c =? 13)%N || (code c =? 10)%N.

Definition is_hex (c : ascii) : bool :=
  is_digit c || between 97 102 c || between 65 70 c.

Definition hex_value (c : ascii) : N :=
  (if is_digit c then code c - 48
   else if between 97 102 c then code c - 87
   else code c - 55)%N.

Definition is_simple_escape (c : ascii) : bool :=
  existsb (Ascii.eqb c)
    [dquote; backslash; "/"; "b"; "f"; "n"; "r"; "t"]%char.

(** The body of a string literal, from just after its opening quote: the
    raw body and the number of bytes up to and including the closing
    quote.  [None] is a syntax error. *)
Fixpoint scan_string (s : string) : option (string * nat) :=
  match s with
  | "" => None
  | String c t =>
      if Ascii.eqb c dquote then Some ("", 1)
      else if Ascii.eqb c backslash then
        match t with
        | String e t' =>
            if is_simple_escape e then
              match scan_string t' with
              | Some (body, n) => Some (String c (String e body), 2 + n)
              | None => None
              end
            else if Ascii.eqb e "u" then
              match t' with
              | String h1 (String h2 (String h3 (String h4 t''))) =>
                  if is_hex h1 && is_hex h2 && is_hex h3 && is_hex h4 then
                    match scan_string t'' with
                    | Some (body, n) =>
                        Some (String c (String e (String h1 (String h2
                                (String h3 (String h4 body))))), 6 + n)
                    | None => None
                    end
                  else None
              | _ => None
              end
            else None
        | "" => None
        end
      else if (code c <? 32)%N then None
      else
        match scan_string t with
        | Some (body, n) => Some (String c body, 1 + n)
        | None => None
        end
  end.

Fixpoint span_digits (s : string) : nat * string :=
  match s with
  | String c t =>
      if is_digit c then let (n, rest) := span_digits t in (S n, rest)
      else (0, s)
  | "" => (0, "")
  end.

(** The exponent part of a number, [n] bytes of it read so far. *)
Definition scan_exponent (n : nat) (s : string) : option nat :=
  match s with
  | String c t =>
      if Ascii.eqb c "e" || Ascii.eqb c "E" then
        let (signed, t') :=
          match t with
          | String g u => if Ascii.eqb g "+" || Ascii.eqb g "-" then (1, u) else (0, t)
          | "" => (0, t)
          end in
        let (k, _) := span_digits t' in
        if Nat.eqb k 0 then None else Some (n + 1 + signed + k)
      else Some n
  | "" => Some n
  end.

Definition scan_fraction (n : nat) (s : string) : option nat :=
  match s with
  | String c t =>
      if Ascii.eqb c "." then
        let (k, rest) := span_digits t in
        if Nat.eqb k 0 then None else scan_exponent (n + 1 + k) rest
      else scan_exponent n s
  | "" => Some n
  end.

(** Length of the number literal that starts [s]. *)
Definition scan_number (s : string) : option nat :=
  let (signed, s1) :=
    match s with
    | String c t => if Ascii.eqb c "-" then (1, t) else (0, s)
    | "" => (0, s)
    end in
  match s1 with
  | String d t =>
      if Ascii.eqb d "0" then scan_fraction (signed + 1) t
      else if is_digit d then
        let (k, rest) := span_digits t in scan_fraction (signed + 1 + k) rest
      else None
  | "" => None
  end.

Inductive token :=
| TBeginObject | TEndObject | TBeginArray | TEndArray | TColon | TComma
| TString (raw : string) | TNumber | TTrue | TFalse | TNull.

Definition emit (t : token) (rest : option (list token)) : option (list token) :=
  match rest with
  | Some ts => Some (t :: ts)
  | None => None
  end.

(** The tokens of a JSON text; [skip] bytes are still part of the token
    read last. *)
Fixpoint lex (skip : nat) (s : string) : option (list token) :=
  match s with
  | "" => Some []
  | String c t =>
      match skip with
      | S k => lex k t
      | O =>
          if is_space c then lex 0 t
          else if Ascii.eqb c "{" then emit TBeginObject (lex 0 t)
          else if Ascii.eqb c "}" then emit TEndObject (lex 0 t)
          else if Ascii.eqb c "[" then emit TBeginArray (lex 0 t)
          else if Ascii.eqb c "]" then emit TEndArray (lex 0 t)
          else if Ascii.eqb c ":" then emit TColon (lex 0 t)
          else if Ascii.eqb c "," then emit TComma (lex 0 t)
          else if Ascii.eqb c dquote then
            match scan_string t with
            | Some (raw, n) => emit (TString raw) (lex n t)
            | None => None
            end
          else if Ascii.eqb c "-" || is_digit c then
            match scan_number s with
            | Some n => emit TNumber (lex (n - 1) t)
            | None => None
            end
          else if prefix "true" s then emit TTrue (lex 3 t)
          else if prefix "false" s then emit TFalse (lex 4 t)
          else if prefix "null" s then emit TNull (lex 3 t)
          else None
      end
  end.

(** *** String values ([unquote]) *)

Definition hex4 (h1 h2 h3 h4 : ascii) : N :=
  (hex_value h1 * 4096 + hex_value h2 * 256 + hex_value h3 * 16 + hex_value h4)%N.

(** [getu4]: the code unit of a leading [\uXXXX], if there is one. *)
Definition getu4 (s : string) : option N :=
  match s with
  | String b (String u (String h1 (String h2 (String h3 (String h4 _))))) =>
      if Ascii.eqb b backslash && Ascii.eqb u "u"
         && is_hex h1 && is_hex h2 && is_hex h3 && is_hex h4
      then Some (hex4 h1 h2 h3 h4)
      else None
  | _ => None
  end.

Definition is_surrogate (r : N) : bool := ((55296 <=? r) && (r <? 57344))%N.

(** [utf16.DecodeRune], [None] for its answer U+FFFD. *)
Definition utf16_DecodeRune (r1 r2 : N) : option N :=
  (if (55296 <=? r1) && (r1 <? 56320) && (56320 <=? r2) && (r2 <? 57344)
   then Some ((r1 - 55296) * 1024 + (r2 - 56320) + 65536)
   else None)%N.

Definition escaped_byte (e : ascii) : ascii :=
  if Ascii.eqb e "b" then byte 8
  else if Ascii.eqb e "f" then byte 12
  else if Ascii.eqb e "n" then byte 10
  else if Ascii.eqb e "r" then byte 13
  else if Ascii.eqb e "t" then byte 9
  else e.

Fixpoint drop (n : nat) (s : string) : string :=
  match n, s with
  | S k, String _ t => drop k t
  | _, _ => s
  end.

(** The bytes a scanned string body stands for: escapes are replaced and
    bytes that are not UTF-8 become U+FFFD.  [skip] bytes belong to what
    was written last. *)
Fixpoint unquote (skip : nat) (s : string) : string :=
  match s with
  | "" => ""
  | String c t =>
      match skip with
      | S k => unquote k t
      | O =>
          if Ascii.eqb c backslash then
            match getu4 s with
            | Some rr =>
                if is_surrogate rr then
                  match getu4 (drop 5 t) with
                  | Some rr1 =>
                      match utf16_DecodeRune rr rr1 with
                      | Some dec => EncodeRune dec ++ unquote 11 t
                      | None => replacement ++ unquote 5 t
                      end
                  | None => replacement ++ unquote 5 t
                  end
                else EncodeRune rr ++ unquote 5 t
            | None =>
                match t with
                | String e _ => String (escaped_byte e) (unquote 1 t)
                | "" => ""
                end
            end
          else if (code c <? 128)%N then String c (unquote 0 t)
          else
            match utf8_width s with
            | O => replacement ++ unquote 0 t
            | S k => take (S k) s ++ unquote k t
            end
      end
  end.

(** *** JSON values *)

#[local] Unset Elimination Schemes.
Inductive json :=
| JNull
| JBool (b : bool)
| JNumber
| JString (s : string)
| JArray (elems : list json)
| JObject (members : list (string * json)).
#[local] Set Elimination Schemes.

(** What the parser is inside of: an array with the elements read so far,
    or an object with its members read so far and the key last read (both
    lists newest first). *)
Inductive frame :=
| FArray (done : list json)
| FObject (done : list (string * json)) (key : string).

(** What may come next (the scanner's step functions). *)
Inductive expect :=
| EValue            (* a value *)
| EValueOrEnd       (* after an opening bracket: a value or the closing bracket *)
| EKeyOrEnd         (* after an opening brace: a key or the closing brace *)
| EKey              (* after a comma in an object: a key *)
| EColon            (* after a key *)
| ECommaOrEnd       (* after a value in an array or object *)
| EEnd (v : json).  (* after the top-level value *)

(** A value is complete: it goes to the enclosing array or object. *)
Definition deliver (v : json) (stack : list frame) : expect * list frame :=
  match stack with
  | [] => (EEnd v, [])
  | FArray done :: outer => (ECommaOrEnd, FArray (v :: done) :: outer)
  | FObject done key :: outer => (ECommaOrEnd, FObject ((key, v) :: done) key :: outer)
  end.

Definition begin_value (t : token) (stack : list frame) : option (expect * list frame) :=
  match t with
  | TBeginObject => Some (EKeyOrEnd, FObject [] "" :: stack)
  | TBeginArray => Some (EValueOrEnd, FArray [] :: stack)
  | TString raw => Some (deliver (JString (unquote 0 raw)) stack)
  | TNumber => Some (deliver JNumber stack)
  | TTrue => Some (deliver (JBool true) stack)
  | TFalse => Some (deliver (JBool false) stack)
  | TNull => Some (deliver JNull stack)
  | _ => None
  end.

Definition end_array (stack : list frame) : option (expect * list frame) :=
  match stack with
  | FArray done :: outer => Some (deliver (JArray (rev done)) outer)
  | _ => None
  end.

Definition end_object (stack : list frame) : option (expect * list frame) :=
  match stack with
  | FObject done _ :: outer => Some (deliver (JObject (rev done)) outer)
  | _ => None
  end.

Definition begin_key (t : token) (stack : list frame) : option (expect * list frame) :=
  match t, stack with
  | TString raw, FObject done _ :: outer =>
      Some (EColon, FObject done (unquote 0 raw) :: outer)
  | _, _ => None
  end.

Definition step (e : expect) (stack : list frame) (t : token)
  : option (expect * list frame) :=
  match e with
  | EValue => begin_value t stack
  | EValueOrEnd =>
      match t with
      | TEndArray => end_array stack
      | _ => begin_value t stack
      end
  | EKeyOrEnd =>
      match t with
      | TEndObject => end_object stack
      | _ => begin_key t stack
      end
  | EKey => begin_key t stack
  | EColon =>
      match t with
      | TColon => Some (EValue, stack)
      | _ => None
      end
  | ECommaOrEnd =>
      match t, stack with
      | TComma, FArray _ :: _ => Some (EValue, stack)
      | TComma, FObject _ _ :: _ => Some (EKey, stack)
      | TEndArray, _ => end_array stack
      | TEndObject, _ => end_object stack
      | _, _ => None
      end
  | EEnd _ => None
  end.

Fixpoint run (e : expect) (stack : list frame) (ts : list token) : option json :=
  match ts with
  | [] => match e with EEnd v => Some v | _ => None end
  | t :: rest =>
      match step e stack t with
      | Some (e', stack') => run e' stack' rest
      | None => None
      end
  end.

(** The value a JSON text stands for; [None] is a [SyntaxError]. *)
Definition parse (data : string) : option json :=
  match lex 0 data with
  | Some ts => run EValue [] ts
  | None => None
  end.

(** *** Decoding into the payload structs

    A store function takes the JSON value and the Go value already in
    place, and answers the Go value left in place and whether an
    [UnmarshalTypeError] was saved.  [Unmarshal] reports the saved error
    after the whole value was decoded. *)

Definition store (A : Type) : Type := json -> A -> A * bool.

(** A [string] field. *)
Definition store_string : store string :=
  fun j cur =>
    match j with
    | JString s => (s, false)
    | JNull => (cur, false)
    | _ => (cur, true)
    end.

(** Case folding of a key, for comparison with a lower-case ASCII field
    name: besides the ASCII capitals, the Kelvin sign folds to [k] and the
    long s to [s]. *)
Fixpoint fold_key (s : string) : string :=
  match s with
  | "" => ""
  | String c t =>
      let otherwise := String (lower_byte c) (fold_key t) in
      match t with
      | String c1 t1 =>
          if (code c =? 197)%N && (code c1 =? 191)%N then String "s" (fold_key t1)
          else
            match t1 with
            | String c2 t2 =>
                if (code c =? 226)%N && (code c1 =? 132)%N && (code c2 =? 170)%N
                then String "k" (fold_key t2)
                else otherwise
            | "" => otherwise
            end
      | "" => otherwise
      end
  end.

(** Does [key] name the field tagged [name]? *)
Definition field_matches (name key : string) : bool :=
  (key =? name) || (fold_key key =? name).

(** A struct with the single field [name]: members with another key are
    skipped, the others are decoded into the field one after the other. *)
Definition store_struct {A : Type} (name : string) (field : store A) : store A :=
  fun j cur =>
    match j with
    | JObject members =>
        fold_left
          (fun st m =>
             if field_matches name (fst m)
             then let (v, err) := field (snd m) (fst st) in (v, snd st || err)
             else st)
          members (cur, false)
    | JNull => (cur, false)
    | _ => (cur, true)
    end.

(** A slice of strings: its backing array and its length.  The capacity
    is the length of the backing array. *)
Record slice := { backing : list string; len : nat }.

Definition slice_nil : slice := {| backing := []; len := 0 |}.

Definition elements (v : slice) : list string := firstn (len v) (backing v).

Fixpoint set_nth (i : nat) (x : string) (l : list string) : list string :=
  match l, i with
  | [], _ => []
  | _ :: t, O => x :: t
  | h :: t, S k => h :: set_nth k x t
  end.

(** The decoder's growth step: a new array of capacity [cap + cap/2], at
    least 4, holding the [len] elements. *)
Definition grow (v : slice) : slice :=
  let cap := List.length (backing v) in
  let newcap := Nat.max 4 (cap + cap / 2) in
  {| backing := (elements v ++ repeat "" (newcap - len v))%list; len := len v |}.

(** One element of a JSON array is decoded into index [i]. *)
Definition store_element (st : slice * bool * nat) (j : json) : slice * bool * nat :=
  let '(v, err, i) := st in
  let v := if (List.length (backing v) <=? i)%nat then grow v else v in
  let v := if (len v <=? i)%nat then {| backing := backing v; len := S i |} else v in
  let (x, e) := store_string j (nth i (backing v) "") in
  ({| backing := set_nth i x (backing v); len := len v |}, err || e, S i).

(** A [[]string] field. *)
Definition store_slice : store slice :=
  fun j cur =>
    match j with
    | JArray elems =>
        let '(v, err, n) := fold_left store_element elems (cur, false, 0) in
        let v := if (n <? len v)%nat then {| backing := backing v; len := n |} else v in
        let v := if Nat.eqb n 0 then slice_nil else v in
        (v, err)
    | JNull => (slice_nil, false)
    | _ => (cur, true)
    end.

(** [json.Unmarshal(data, &payload)] with [payload] at its zero value;
    [None] when it returns an error. *)
Definition Unmarshal {A : Type} (target : store A) (zero : A) (data : string) : option A :=
  match parse data with
  | None => None
  | Some j =>
      let (v, err) := target j zero in
      if err then None else Some v
  end.

(** [struct { Action string `json:"action"` }] *)
Definition json_Unmarshal_action (data : string) : option string :=
  Unmarshal (store_struct "action" store_string) "" data.

(** [struct { Issue struct { Labels []string `json:"labels"` } `json:"issue"` }] *)
Definition json_Unmarshal_issue_labels (data : string) : option (list string) :=
  option_map elements
    (Unmarshal (store_struct "issue" (store_struct "labels" store_slice)) slice_nil data).

(** [struct { Issue struct { Milestone struct { Title string `json:"title"` }
    `json:"milestone"` } `json:"issue"` }] *)
Definition json_Unmarshal_issue_milestone_title (data : string) : option string :=
  Unmarshal
    (store_struct "issue" (store_struct "milestone" (store_struct "title" store_string)))
    "" data.

(** [struct { Issue struct { Title string `json:"title"` } `json:"issue"` }] *)
Definition json_Unmarshal_issue_title (data : string) : option string :=
  Unmarshal (store_struct "issue" (store_struct "title" store_string)) "" data.

(** [struct { Issue struct { Body string `json:"body"` } `json:"issue"` }] *)
Definition json_Unmarshal_issue_body (data : string) : option string :=
  Unmarshal (store_struct "issue" (store_struct "body" store_string)) "" data.

(** JSON texts are written with [']  for the double quote. *)
Definition js (s : string) : string :=
  let fix go (s : string) : string :=
    match s with
    | "" => ""
    | String c t => String (if Ascii.eqb c "'" then dquote else c) (go t)
    end in
  go s.

(** *** Regular expressions ([regexp])

    The fragment of the pattern syntax covered here: ASCII literals, the
    classes [\s], [\d] and [\w], escaped punctuation and control escapes,
    groups (capturing or [(?:]), alternation, the repetitions [*], [+] and
    [?] (greedy or not, which no boolean match can tell apart), and a
    leading [(?i)].  [Compile] answers [None] for every other pattern,
    malformed or not.  Matching is by derivatives, on bytes. *)

Inductive re :=
| Void                      (* matches nothing *)
| Eps                       (* matches the empty string *)
| Bytes (set : list ascii)  (* one byte of the set *)
| Cat (a b : re)
| Alt (a b : re)
| Star (a : re).

Fixpoint nullable (r : re) : bool :=
  match r with
  | Void => false
  | Eps => true
  | Bytes _ => false
  | Cat a b => nullable a && nullable b
  | Alt a b => nullable a || nullable b
  | Star _ => true
  end.

Definition cat (a b : re) : re :=
  match a, b with
  | Void, _ => Void
  | _, Void => Void
  | Eps, _ => b
  | _, Eps => a
  | _, _ => Cat a b
  end.

Definition alt (a b : re) : re :=
  match a, b with
  | Void, _ => b
  | _, Void => a
  | _, _ => Alt a b
  end.

(** What must follow the byte [c] for [r] to match. *)
Fixpoint deriv (c : ascii) (r : re) : re :=
  match r with
  | Void => Void
  | Eps => Void
  | Bytes set => if existsb (Ascii.eqb c) set then Eps else Void
  | Cat a b => alt (cat (deriv c a) b) (if nullable a then deriv c b else Void)
  | Alt a b => alt (deriv c a) (deriv c b)
  | Star a => cat (deriv c a) (Star a)
  end.

(** Does [r] match the whole of [s]? *)
Fixpoint full_match (r : re) (s : string) : bool :=
  match s with
  | "" => nullable r
  | String c t => full_match (deriv c r) t
  end.

(** Does [r] match a prefix of [s]? *)
Fixpoint prefix_match (r : re) (s : string) : bool :=
  nullable r ||
  match s with
  | "" => false
  | String c t => prefix_match (deriv c r) t
  end.

(** [MatchString]: does [r] match somewhere in [s]? *)
Fixpoint MatchString (r : re) (s : string) : bool :=
  prefix_match r s ||
  match s with
  | "" => false
  | String _ t => MatchString r t
  end.

(** A group being read: its finished alternatives and the pieces of the
    alternative being read, both newest first. *)
Record group := { alts : list re; items : list re }.

Definition cat_items (items : list re) : re := fold_left (fun acc r => cat r acc) items Eps.

Definition close_group (g : group) : re :=
  fold_left (fun acc r => alt r acc) (alts g) (cat_items (items g)).

Record pstate := {
  outer : list group;      (* the enclosing groups, innermost first *)
  cur : group;
  last_repeat : bool       (* the piece read last is a repetition *)
}.

Definition push_item (r : re) (st : pstate) : pstate :=
  {| outer := outer st;
     cur := {| alts := alts (cur st); items := r :: items (cur st) |};
     last_repeat := false |}.

Definition one (c : ascii) : re := Bytes [c].

(** A literal byte.  Under [(?i)] a letter stands for both cases, with
    the Kelvin sign beside [k] and the long s beside [s]. *)
Definition literal (fold : bool) (c : ascii) : re :=
  if fold && (is_upper c || is_lower c) then
    let both := Bytes [lower_byte c; upper_byte c] in
    if Ascii.eqb (lower_byte c) "k" then
      Alt both (Cat (one (byte 226)) (Cat (one (byte 132)) (one (byte 170))))
    else if Ascii.eqb (lower_byte c) "s" then
      Alt both (Cat (one (byte 197)) (one (byte 191)))
    else both
  else one c.

Definition digits : list ascii := map byte [48; 49; 50; 51; 52; 53; 54; 55; 56; 57]%N.

Definition letters : list ascii :=
  map (fun n => byte (65 + N.of_nat n)) (seq 0 26)
  ++ map (fun n => byte (97 + N.of_nat n)) (seq 0 26).

(** The piece an escape [\e] stands for. *)
Definition escape (e : ascii) : option re :=
  if Ascii.eqb e "s" then Some (Bytes (map byte [9; 10; 12; 13; 32]%N))
  else if Ascii.eqb e "d" then Some (Bytes digits)
  else if Ascii.eqb e "w" then Some (Bytes (digits ++ letters ++ ["_"%char]))
  else if Ascii.eqb e "n" then Some (one (byte 10))
  else if Ascii.eqb e "t" then Some (one (byte 9))
  else if Ascii.eqb e "r" then Some (one (byte 13))
  else if Ascii.eqb e "f" then Some (one (byte 12))
  else if Ascii.eqb e "a" then Some (one (byte 7))
  else if Ascii.eqb e "v" then Some (one (byte 11))
  else if (code e <? 128)%N && negb (is_digit e || is_upper e || is_lower e)
  then Some (one e)
  else None.

Definition repetition (c : ascii) (a : re) : re :=
  if Ascii.eqb c "*" then Star a
  else if Ascii.eqb c "+" then cat a (Star a)
  else alt Eps a.

(** The pattern is read byte by byte; [skip] bytes belong to the piece
    read last. *)
Fixpoint parse_pattern (fold : bool) (skip : nat) (st : pstate) (s : string) : option re :=
  match s with
  | "" =>
      match outer st with
      | [] => Some (close_group (cur st))
      | _ :: _ => None
      end
  | String c t =>
      match skip with
      | S k => parse_pattern fold k st t
      | O =>
          if Ascii.eqb c "(" then
            let inner := {| outer := cur st :: outer st;
                            cur := {| alts := []; items := [] |};
                            last_repeat := false |} in
            if prefix "?:" t then parse_pattern fold 2 inner t
            else if prefix "?" t then None
            else parse_pattern fold 0 inner t
          else if Ascii.eqb c ")" then
            match outer st with
            | [] => None
            | g :: gs =>
                parse_pattern fold 0
                  (push_item (close_group (cur st))
                     {| outer := gs; cur := g; last_repeat := false |}) t
            end
          else if Ascii.eqb c "|" then
            parse_pattern fold 0
              {| outer := outer st;
                 cur := {| alts := cat_items (items (cur st)) :: alts (cur st);
                           items := [] |};
                 last_repeat := false |} t
          else if Ascii.eqb c "*" || Ascii.eqb c "+" || Ascii.eqb c "?" then
            match last_repeat st, items (cur st) with
            | false, a :: rest =>
                parse_pattern fold (if prefix "?" t then 1 else 0)
                  {| outer := outer st;
                     cur := {| alts := alts (cur st); items := repetition c a :: rest |};
                     last_repeat := true |} t
            | _, _ => None
            end
          else if Ascii.eqb c backslash then
            match t with
            | String e _ =>
                match escape e with
                | Some r => parse_pattern fold 1 (push_item r st) t
                | None => None
                end
            | "" => None
            end
          else if existsb (Ascii.eqb c) ["."; "["; "{"; "^"; "$"]%char then None
          else if (128 <=? code c)%N then None
          else parse_pattern fold 0 (push_item (literal fold c) st) t
      end
  end.

(** [regexp.Compile], [None] when it returns an error. *)
Definition Compile (pattern : string) : option re :=
  let start := {| outer := []; cur := {| alts := []; items := [] |};
                  last_repeat := false |} in
  if prefix "(?i)" pattern
  then parse_pattern true 4 start pattern
  else parse_pattern false 0 start pattern.

(** The library instance. *)
Definition lib : GoLib :=
  {| Unmarshal_action := json_Unmarshal_action;
     Unmarshal_issue_labels := json_Unmarshal_issue_labels;
     Unmarshal_issue_milestone_title := json_Unmarshal_issue_milestone_title;
     Unmarshal_issue_title := json_Unmarshal_issue_title;
     Unmarshal_issue_body := json_Unmarshal_issue_body;
     strings_ToLower := ToLower;
     Regexp := re;
     regexp_Compile := Compile;
     Regexp_MatchString := MatchString |}.

End GoStd.

(** ** Rendering a condition *)

(** A string between double quotes, a double quote or a backslash inside
    it written after a backslash. *)
Fixpoint quoted_body (s : string) : string :=
  match s with
  | "" => ""
  | String c t =>
      if Ascii.eqb c GoStd.dquote || Ascii.eqb c GoStd.backslash
      then String GoStd.backslash (String c (quoted_body t))
      else String c (quoted_body t)
  end.

Definition quote (s : string) : string :=
  String GoStd.dquote (quoted_body s ++ String GoStd.dquote "").

Definition decimal (z : Z) : string :=
  DecimalString.NilZero.string_of_int (Z.to_int z).

Fixpoint join (sep : string) (parts : list string) : string :=
  match parts with
  | [] => ""
  | [p] => p
  | p :: rest => p ++ sep ++ join sep rest
  end.

Definition clause (k : subcheck) (c : Condition) : string :=
  let is_ := if Negate c then "is not" else "is" in
  let matches := if Negate c then "does not match regexp" else "matches regexp" in
  let contains := if Negate c then "does not contain" else "contains" in
  match k with
  | SubType => "type " ++ is_ ++ " " ++ quote (Type_ c)
  | SubPayloadAction => "payload action " ++ is_ ++ " " ++ quote (PayloadAction c)
  | SubPayloadIssueLabel =>
      "payload issue label " ++ contains ++ " " ++ quote (PayloadIssueLabel c)
  | SubPayloadIssueMilestoneTitle =>
      "payload issue milestone title " ++ is_ ++ " " ++ quote (PayloadIssueMilestoneTitle c)
  | SubPayloadIssueTitleRegexp =>
      "payload issue title " ++ matches ++ " " ++ quote (PayloadIssueTitleRegexp c)
  | SubPayloadIssueBodyRegexp =>
      "payload issue body " ++ matches ++ " " ++ quote (PayloadIssueBodyRegexp c)
  | SubVisibility =>
      "event " ++ is_ ++ (if Public c then " public" else " not public")
  | SubOrganizationID => "organization ID " ++ is_ ++ " " ++ decimal (OrganizationID c)
  | SubRepositoryID => "repository ID " ++ is_ ++ " " ++ decimal (RepositoryID c)
  end.

(** Modelled from the spec: the [String] method of [Condition].  The test
    [TestFilter_string] calls it and no source file defines it.  As the
    specification says, it describes the configured sub-checks in the
    order of evaluation, joined with [" AND "], each phrased according to
    [Negate]; the phrases and the leading [If] are those of the
    specification's examples and of the test's table. *)
Definition Condition_String (c : Condition) : string :=
  "If " ++ join " AND "
             (map (fun k => clause k c) (filter (configured c) evaluation_order)).

(** ** Events and conditions of the repository's tests *)

Definition Event_zero : github.Event :=
  {| github.Type_ := None; github.Public := None; github.RawPayload := None;
     github.Repo := None; github.Org := None |}.

Definition event_of_type (t : string) (public : option bool) : github.Event :=
  {| github.Type_ := Some t; github.Public := public; github.RawPayload := None;
     github.Repo := None; github.Org := None |}.

Definition event_of_payload (raw : string) : github.Event :=
  {| github.Type_ := None; github.Public := None; github.RawPayload := Some raw;
     github.Repo := None; github.Org := None |}.

Definition event_of_org (org : option github.Organization) : github.Event :=
  {| github.Type_ := None; github.Public := None; github.RawPayload := None;
     github.Repo := None; github.Org := org |}.

Definition set_Negate := with_Negate true.

Definition cond_Type (t : string) : Condition :=
  {| Negate := false; Type_ := t; PayloadAction := ""; PayloadIssueLabel := "";
     PayloadIssueMilestoneTitle := ""; PayloadIssueTitleRegexp := "";
     PayloadIssueBodyRegexp := ""; ComparePublic := false; Public := false;
     OrganizationID := 0; RepositoryID := 0 |}.

Definition cond_PayloadAction (a : string) : Condition :=
  {| Negate := false; Type_ := ""; PayloadAction := a; PayloadIssueLabel := "";
     PayloadIssueMilestoneTitle := ""; PayloadIssueTitleRegexp := "";
     PayloadIssueBodyRegexp := ""; ComparePublic := false; Public := false;
     OrganizationID := 0; RepositoryID := 0 |}.

Definition cond_Type_PayloadAction (t a : string) : Condition :=
  {| Negate := false; Type_ := t; PayloadAction := a; PayloadIssueLabel := "";
     PayloadIssueMilestoneTitle := ""; PayloadIssueTitleRegexp := "";
     PayloadIssueBodyRegexp := ""; ComparePublic := false; Public := false;
     OrganizationID := 0; RepositoryID := 0 |}.

Definition cond_PayloadIssueLabel (l : string) : Condition :=
  {| Negate := false; Type_ := ""; PayloadAction := ""; PayloadIssueLabel := l;
     PayloadIssueMilestoneTitle := ""; PayloadIssueTitleRegexp := "";
     PayloadIssueBodyRegexp := ""; ComparePublic := false; Public := false;
     OrganizationID := 0; RepositoryID := 0 |}.

Definition cond_PayloadIssueMilestoneTitle (m : string) : Condition :=
  {| Negate := false; Type_ := ""; PayloadAction := ""; PayloadIssueLabel := "";
     PayloadIssueMilestoneTitle := m; PayloadIssueTitleRegexp := "";
     PayloadIssueBodyRegexp := ""; ComparePublic := false; Public := false;
     OrganizationID := 0; RepositoryID := 0 |}.

Definition cond_PayloadIssueTitleRegexp (p : string) : Condition :=
  {| Negate := false; Type_ := ""; PayloadAction := ""; PayloadIssueLabel := "";
     PayloadIssueMilestoneTitle := ""; PayloadIssueTitleRegexp := p;
     PayloadIssueBodyRegexp := ""; ComparePublic := false; Public := false;
     OrganizationID := 0; RepositoryID := 0 |}.

Definition cond_PayloadIssueBodyRegexp (p : string) : Condition :=
  {| Negate := false; Type_ := ""; PayloadAction := ""; PayloadIssueLabel := "";
     PayloadIssueMilestoneTitle := ""; PayloadIssueTitleRegexp := "";
     PayloadIssueBodyRegexp := p; ComparePublic := false; Public := false;
     OrganizationID := 0; RepositoryID := 0 |}.

Definition cond_Public (p : bool) : Condition :=
  {| Negate := false; Type_ := ""; PayloadAction := ""; PayloadIssueLabel := "";
     PayloadIssueMilestoneTitle := ""; PayloadIssueTitleRegexp := "";
     PayloadIssueBodyRegexp := ""; ComparePublic := true; Public := p;
     OrganizationID := 0; RepositoryID := 0 |}.

Definition cond_OrganizationID (i : Z) : Condition :=
  {| Negate := false; Type_ := ""; PayloadAction := ""; PayloadIssueLabel := "";
     PayloadIssueMilestoneTitle := ""; PayloadIssueTitleRegexp := "";
     PayloadIssueBodyRegexp := ""; ComparePublic := false; Public := false;
     OrganizationID := i; RepositoryID := 0 |}.

Definition cond_RepositoryID (i : Z) : Condition :=
  {| Negate := false; Type_ := ""; PayloadAction := ""; PayloadIssueLabel := "";
     PayloadIssueMilestoneTitle := ""; PayloadIssueTitleRegexp := "";
     PayloadIssueBodyRegexp := ""; ComparePublic := false; Public := false;
     OrganizationID := 0; RepositoryID := i |}.

(** Expected renderings are written with ['] for the double quote. *)
Definition text (s : string) : string := GoStd.js s.

(** The filter of [TestFilter_matches]. *)
Definition TestFilter : Filter :=
  {| Conditions := [cond_Public false; cond_Type "IssuesEvent"] |}.

(** A payload without an action key, one whose milestone is null, and one
    whose action is a number. *)
Definition payload_empty_object : string := GoStd.js "{}".
Definition payload_null_milestone : string := GoStd.js "{'issue':{'milestone':null}}".
Definition payload_action_number : string := GoStd.js "{'action':5}".
Definition payload_title_x : string := GoStd.js "{'issue':{'title':'x'}}".

(** A pattern that does not compile: its group is not closed. *)
Definition pattern_unclosed : string := "(".

(** The pattern and the payloads of [TestCondition_payloadIssueTitleRegexp]. *)
Definition pattern_will_match : string := "(?i)will\s+match".
Definition payload_title_match : string := GoStd.js "{'issue':{'title':'This will Match'}}".
Definition payload_title_nomatch : string :=
  GoStd.js "{'issue':{'title':'This will Not Match'}}".

(** Payloads of [TestCondition_payloadAction] and
    [TestCondition_payloadIssueLabel]. *)
Definition payload_opened : string := GoStd.js "{'action':'opened'}".
Definition payload_Opened : string := GoStd.js "{'action':'Opened'}".
Definition payload_labels : string := GoStd.js "{'issue':{'labels':['LBL', 'x']}}".
Definition payload_labels_swapped : string := GoStd.js "{'issue':{'labels':['x', 'LBL']}}".
Definition payload_no_labels : string := GoStd.js "{'issue':{'labels':[]}}".
Definition payload_milestone : string :=
  GoStd.js "{'issue':{'milestone':{'Title':'title'}}}".

(** More payloads of the tests. *)
Definition payload_created : string := GoStd.js "{'action':'created'}".
Definition payload_body_match : string := GoStd.js "{'issue':{'body':'This will Match'}}".
Definition payload_body_nomatch : string :=
  GoStd.js "{'issue':{'body':'This will Not Match'}}".

Definition event_of_repo (repo : option github.Repository) : github.Event :=
  {| github.Type_ := None; github.Public := None; github.RawPayload := None;
     github.Repo := repo; github.Org := None |}.

Definition event_of_public (public : bool) : github.Event :=
  {| github.Type_ := None; github.Public := Some public; github.RawPayload := None;
     github.Repo := None; github.Org := None |}.

(** The conditions of a test table that match an event, by position. *)
Definition matching (conditions : list Condition) (events : list github.Event)
  : list (list bool) :=
  map (fun c => map (Matches GoStd.lib c) events) conditions.

(** ** The earlier revisions of the package

    [Rev1] is the revision without [Negate], milestone and regexps (the
    file [ghfilter.go]); [Rev0] is the first one, whose filter matches
    when any condition does and whose action sub-check compares case
    sensitively. *)

Module Rev1.

Record Condition := {
  Type_ : string;
  PayloadAction : string;
  PayloadIssueLabel : string;
  ComparePublic : bool;
  Public : bool;
  OrganizationID : Z;
  RepositoryID : Z
}.

Record Filter := { Conditions : list Condition }.

Section Matching.

Variable L : GoLib.

(** [func (c *Condition) Matches(event *github.Event) bool] *)
Definition Matches_flow (c : Condition) (event : github.Event) : flow :=
  (if negb (Type_ c =? "") && negb (github.GetType event =? Type_ c)
   then Return false
   else Next) ;;
  (if negb (PayloadAction c =? "") then
     match github.RawPayload event with
     | None => Return false
     | Some raw =>
         match Unmarshal_action L raw with
         | None => Return false
         | Some payload_Action =>
             if negb (strings_ToLower L payload_Action
                        =? strings_ToLower L (PayloadAction c))
             then Return false
             else Next
         end
     end
   else Next) ;;
  (if negb (PayloadIssueLabel c =? "") then
     match github.RawPayload event with
     | None => Return false
     | Some raw =>
         match Unmarshal_issue_labels L raw with
         | None => Return false
         | Some payload_Issue_Labels =>
             let found := label_found L (PayloadIssueLabel c) payload_Issue_Labels in
             if negb found then Return false else Next
         end
     end
   else Next) ;;
  (if ComparePublic c && negb (Bool.eqb (github.GetPublic event) (Public c))
   then Return false
   else Next) ;;
  (if negb (OrganizationID c =? 0)%Z
      && match github.Org event with
         | None => true
         | Some org => negb (github.Organization_GetID org =? OrganizationID c)%Z
         end
   then Return false
   else Next) ;;
  (if negb (RepositoryID c =? 0)%Z
      && match github.Repo event with
         | None => true
         | Some repo => negb (github.Repository_GetID repo =? RepositoryID c)%Z
         end
   then Return false
   else Next) ;;
  Return true.

Definition Matches (c : Condition) (event : github.Event) : bool :=
  match Matches_flow c event with
  | Return b => b
  | Next => true
  end.

(** [func (f *Filter) Matches(event *github.Event) bool]: the [range]
    loop. *)
Fixpoint Filter_range (conditions : list Condition) (event : github.Event) : bool :=
  match conditions with
  | [] => true
  | condition :: rest =>
      if negb (Matches condition event) then false else Filter_range rest event
  end.

Definition Filter_Matches (f : Filter) (event : github.Event) : bool :=
  Filter_range (Conditions f) event.

End Matching.

End Rev1.

Module Rev0.

Record Condition := {
  Type_ : string;
  PayloadAction : string;
  ComparePublic : bool;
  Public : bool;
  OrganizationID : Z;
  RepositoryID : Z
}.

Record Filter := { Conditions : list Condition }.

Section Matching.

Variable L : GoLib.

(** [func (c *Condition) Matches(event *github.Event) bool] *)
Definition Matches_flow (c : Condition) (event : github.Event) : flow :=
  (if negb (Type_ c =? "") && negb (github.GetType event =? Type_ c)
   then Return false
   else Next) ;;
  (if negb (PayloadAction c =? "") then
     match github.RawPayload event with
     | None => Return false
     | Some raw =>
         match Unmarshal_action L raw with
         | None => Return false
         | Some payload_Action =>
             if negb (payload_Action =? PayloadAction c)
             then Return false
             else Next
         end
     end
   else Next) ;;
  (if ComparePublic c && negb (Bool.eqb (github.GetPublic event) (Public c))
   then Return false
   else Next) ;;
  (if negb (OrganizationID c =? 0)%Z
      && match github.Org event with
         | None => true
         | Some org => negb (github.Organization_GetID org =? OrganizationID c)%Z
         end
   then Return false
   else Next) ;;
  (if negb (RepositoryID c =? 0)%Z
      && match github.Repo event with
         | None => true
         | Some repo => negb (github.Repository_GetID repo =? RepositoryID c)%Z
         end
   then Return false
   else Next) ;;
  Return true.

Definition Matches (c : Condition) (event : github.Event) : bool :=
  match Matches_flow c event with
  | Return b => b
  | Next => true
  end.

(** [func (f *Filter) Matches(event *github.Event) bool]: the [range] loop
    returns at the first condition that matches. *)
Fixpoint Filter_range (conditions : list Condition) (event : github.Event) : bool :=
  match conditions with
  | [] => false
  | condition :: rest =>
      if Matches condition event then true else Filter_range rest event
  end.

Definition Filter_Matches (f : Filter) (event : github.Event) : bool :=
  Filter_range (Conditions f) event.

End Matching.

End Rev0.

(** A condition of an earlier revision written in the next one: the
    fields it has are kept, the new ones are at their zero value. *)
Definition Rev0_to_Rev1 (c : Rev0.Condition) : Rev1.Condition :=
  {| Rev1.Type_ := Rev0.Type_ c;
     Rev1.PayloadAction := Rev0.PayloadAction c;
     Rev1.PayloadIssueLabel := "";
     Rev1.ComparePublic := Rev0.ComparePublic c;
     Rev1.Public := Rev0.Public c;
     Rev1.OrganizationID := Rev0.OrganizationID c;
     Rev1.RepositoryID := Rev0.RepositoryID c |}.

Definition Rev1_to_current (c : Rev1.Condition) : Condition :=
  {| Negate := false;
     Type_ := Rev1.Type_ c;
     PayloadAction := Rev1.PayloadAction c;
     PayloadIssueLabel := Rev1.PayloadIssueLabel c;
     PayloadIssueMilestoneTitle := "";
     PayloadIssueTitleRegexp := "";
     PayloadIssueBodyRegexp := "";
     ComparePublic := Rev1.ComparePublic c;
     Public := Rev1.Public c;
     OrganizationID := Rev1.OrganizationID c;
     RepositoryID := Rev1.RepositoryID c |}.

Definition Rev1_Filter_to_current (f : Rev1.Filter) : Filter :=
  {| Conditions := map Rev1_to_current (Rev1.Conditions f) |}.

(** ** What a sub-check reads and holds *)

(** The first sub-check, in the order of evaluation, that does not let the
    evaluation go on. *)
Definition first_stopping (L : GoLib) (c : Condition) (event : github.Event)
  : option subcheck :=
  find (fun k => negb (passes L c event k)) evaluation_order.

(** The ID a reference carries, as the ID sub-checks read it: a nil
    reference, or the value of [GetID]. *)
Definition organization_read (event : github.Event) : option Z :=
  option_map github.Organization_GetID (github.Org event).

Definition repository_read (event : github.Event) : option Z :=
  option_map github.Repository_GetID (github.Repo event).

(** Two events agree on what the block of sub-check [k] reads. *)
Definition same_data (k : subcheck) (e e' : github.Event) : Prop :=
  match k with
  | SubType => github.GetType e = github.GetType e'
  | SubVisibility => github.GetPublic e = github.GetPublic e'
  | SubOrganizationID => organization_read e = organization_read e'
  | SubRepositoryID => repository_read e = repository_read e'
  | _ => github.RawPayload e = github.RawPayload e'
  end.

(** Two conditions hold the same fields for sub-check [k]. *)
Definition same_fields (k : subcheck) (c c' : Condition) : Prop :=
  match k with
  | SubType => Type_ c = Type_ c'
  | SubPayloadAction => PayloadAction c = PayloadAction c'
  | SubPayloadIssueLabel => PayloadIssueLabel c = PayloadIssueLabel c'
  | SubPayloadIssueMilestoneTitle =>
      PayloadIssueMilestoneTitle c = PayloadIssueMilestoneTitle c'
  | SubPayloadIssueTitleRegexp => PayloadIssueTitleRegexp c = PayloadIssueTitleRegexp c'
  | SubPayloadIssueBodyRegexp => PayloadIssueBodyRegexp c = PayloadIssueBodyRegexp c'
  | SubVisibility => ComparePublic c = ComparePublic c' /\ Public c = Public c'
  | SubOrganizationID => OrganizationID c = OrganizationID c'
  | SubRepositoryID => RepositoryID c = RepositoryID c'
  end.

(** The condition that has the fields of [c] for sub-check [k] alone, and
    is not negated. *)
Definition single (c : Condition) (k : subcheck) : Condition :=
  match k with
  | SubType => cond_Type (Type_ c)
  | SubPayloadAction => cond_PayloadAction (PayloadAction c)
  | SubPayloadIssueLabel => cond_PayloadIssueLabel (PayloadIssueLabel c)
  | SubPayloadIssueMilestoneTitle =>
      cond_PayloadIssueMilestoneTitle (PayloadIssueMilestoneTitle c)
  | SubPayloadIssueTitleRegexp => cond_PayloadIssueTitleRegexp (PayloadIssueTitleRegexp c)
  | SubPayloadIssueBodyRegexp => cond_PayloadIssueBodyRegexp (PayloadIssueBodyRegexp c)
  | SubVisibility =>
      {| Negate := false; Type_ := ""; PayloadAction := ""; PayloadIssueLabel := "";
         PayloadIssueMilestoneTitle := ""; PayloadIssueTitleRegexp := "";
         PayloadIssueBodyRegexp := ""; ComparePublic := ComparePublic c;
         Public := Public c; OrganizationID := 0; RepositoryID := 0 |}
  | SubOrganizationID => cond_OrganizationID (OrganizationID c)
  | SubRepositoryID => cond_RepositoryID (RepositoryID c)
  end.

(** The filter with one condition for each configured sub-check of [c]. *)
Definition split_Condition (c : Condition) : Filter :=
  {| Conditions := map (single c) (filter (configured c) evaluation_order) |}.

(** A sub-check whose block answers its failure with [c.Negate]: its data
    is present and its pattern compiles, or it is an ID sub-check. *)
Definition negatable (L : GoLib) (c : Condition) (event : github.Event)
    (k : subcheck) : bool :=
  match verdict_of L c event k with
  | Succeeds | Fails => true
  | DataAbsent => negb (payload_dependent k)
  | PatternMalformed => false
  end.

(** A condition of the first revision on the action of the payload. *)
Definition Rev0_cond_PayloadAction (a : string) : Rev0.Condition :=
  {| Rev0.Type_ := ""; Rev0.PayloadAction := a; Rev0.ComparePublic := false;
     Rev0.Public := false; Rev0.OrganizationID := 0; Rev0.RepositoryID := 0 |}.

(** Case analysis on the tests of a sequence of blocks. *)
Ltac split_tests :=
  repeat (match goal with
          | |- context [if ?b then _ else _] => destruct b
          | |- context [match ?x with Some _ => _ | None => _ end] => destruct x
          end; cbn [and_then]).

(** * Properties *)

Section Blocks.

Variable L : GoLib.

Lemma fold_found (p : string -> bool) (labels : list string) (found : bool) :
  fold_left (fun found label => if p label then true else found) labels found
  = found || existsb p labels.
Proof.
  revert found.
  induction labels as [|l ls IH]; intro found; simpl.
  - now rewrite orb_false_r.
  - rewrite IH. destruct (p l), found; reflexivity.
Qed.

(** The loop over the labels is a membership test. *)
Lemma label_found_existsb (want : string) (labels : list string) :
  label_found L want labels = existsb (fun l => equal_fold L l want) labels.
Proof.
  unfold label_found, equal_fold.
  now rewrite (fold_found (fun l => strings_ToLower L l =? strings_ToLower L want)).
Qed.

(** Each block does what the verdict of its sub-check commands. *)
Lemma check_verdict (k : subcheck) (c : Condition) (event : github.Event) :
  check L k c event
  = if configured c k then flow_of c k (verdict_of L c event k) else Next.
Proof.
  destruct k; cbn [check configured verdict_of flow_of payload_dependent].
  - unfold check_Type, compared.
    destruct (Type_ c =? ""); cbn; [reflexivity|].
    now destruct (github.GetType event =? Type_ c).
  - unfold check_PayloadAction, on_payload, compared, equal_fold.
    destruct (PayloadAction c =? ""); cbn; [reflexivity|].
    destruct (github.RawPayload event) as [raw|]; [|reflexivity].
    destruct (Unmarshal_action L raw) as [a|]; [|reflexivity].
    now destruct (strings_ToLower L a =? strings_ToLower L (PayloadAction c)).
  - unfold check_PayloadIssueLabel, on_payload, compared.
    destruct (PayloadIssueLabel c =? ""); cbn; [reflexivity|].
    destruct (github.RawPayload event) as [raw|]; [|reflexivity].
    destruct (Unmarshal_issue_labels L raw) as [ls|]; [|reflexivity].
    rewrite label_found_existsb.
    now destruct (existsb _ ls).
  - unfold check_PayloadIssueMilestoneTitle, on_payload, compared, equal_fold.
    destruct (PayloadIssueMilestoneTitle c =? ""); cbn; [reflexivity|].
    destruct (github.RawPayload event) as [raw|]; [|reflexivity].
    destruct (Unmarshal_issue_milestone_title L raw) as [a|]; [|reflexivity].
    now destruct (strings_ToLower L a =? _).
  - unfold check_PayloadIssueTitleRegexp, on_payload, searched, compared.
    destruct (PayloadIssueTitleRegexp c =? ""); cbn; [reflexivity|].
    destruct (github.RawPayload event) as [raw|]; [|reflexivity].
    destruct (Unmarshal_issue_title L raw) as [a|]; [|reflexivity].
    destruct (regexp_Compile L _) as [re|]; [|reflexivity].
    now destruct (Regexp_MatchString L re a).
  - unfold check_PayloadIssueBodyRegexp, on_payload, searched, compared.
    destruct (PayloadIssueBodyRegexp c =? ""); cbn; [reflexivity|].
    destruct (github.RawPayload event) as [raw|]; [|reflexivity].
    destruct (Unmarshal_issue_body L raw) as [a|]; [|reflexivity].
    destruct (regexp_Compile L _) as [re|]; [|reflexivity].
    now destruct (Regexp_MatchString L re a).
  - unfold check_Public, compared.
    destruct (ComparePublic c); cbn; [|reflexivity].
    now destruct (Bool.eqb _ _).
  - unfold check_OrganizationID, on_reference, compared.
    destruct (OrganizationID c =? 0)%Z; cbn; [reflexivity|].
    destruct (github.Org event) as [org|]; [|reflexivity].
    now destruct (github.Organization_GetID org =? OrganizationID c)%Z.
  - unfold check_RepositoryID, on_reference, compared.
    destruct (RepositoryID c =? 0)%Z; cbn; [reflexivity|].
    destruct (github.Repo event) as [repo|]; [|reflexivity].
    now destruct (github.Repository_GetID repo =? RepositoryID c)%Z.
Qed.

Lemma Matches_flow_sequence (c : Condition) (event : github.Event) :
  Matches_flow L c event
  = sequence L c event evaluation_order (Return (negb (Negate c))).
Proof. reflexivity. Qed.

Lemma order_split (k : subcheck) : evaluation_order = (before k ++ k :: after k)%list.
Proof. destruct k; reflexivity. Qed.

Lemma sequence_app (c : Condition) (event : github.Event)
    (ks ks' : list subcheck) (later : flow) :
  sequence L c event (ks ++ ks')%list later
  = sequence L c event ks (sequence L c event ks' later).
Proof. unfold sequence. now rewrite fold_right_app. Qed.

Lemma passes_Next (c : Condition) (event : github.Event) (k : subcheck) :
  passes L c event k = true -> check L k c event = Next.
Proof.
  unfold passes. rewrite check_verdict.
  destruct (configured c k); [|reflexivity].
  now destruct (verdict_of L c event k).
Qed.

Lemma sequence_passes (c : Condition) (event : github.Event)
    (ks : list subcheck) (later : flow) :
  forallb (passes L c event) ks = true -> sequence L c event ks later = later.
Proof.
  induction ks as [|k ks IH]; cbn [forallb]; [reflexivity|].
  intros H. apply andb_prop in H. destruct H as [Hk Hks].
  change (sequence L c event (k :: ks) later)
    with (check L k c event ;; sequence L c event ks later).
  now rewrite (passes_Next _ _ _ Hk), IH.
Qed.

(** When the evaluation reaches [k], the block of [k] is the first to
    decide. *)
Lemma Matches_flow_reaches (c : Condition) (event : github.Event) (k : subcheck) :
  reaches L c event k = true ->
  Matches_flow L c event
  = check L k c event ;; sequence L c event (after k) (Return (negb (Negate c))).
Proof.
  intros H. rewrite Matches_flow_sequence, (order_split k), sequence_app.
  rewrite (sequence_passes _ _ _ _ H). reflexivity.
Qed.

(** A block that returns ends the evaluation, whatever follows it. *)
Lemma sequence_returns (c : Condition) (event : github.Event) (k : subcheck) (b : bool) :
  reaches L c event k = true ->
  check L k c event = Return b ->
  forall later, sequence L c event (before k ++ [k])%list later = Return b.
Proof.
  intros Hr Hk later. rewrite sequence_app, (sequence_passes _ _ _ _ Hr).
  change (sequence L c event [k] later) with (check L k c event ;; later).
  now rewrite Hk.
Qed.

Lemma Matches_returns (c : Condition) (event : github.Event) (k : subcheck) (b : bool) :
  reaches L c event k = true ->
  check L k c event = Return b ->
  Matches L c event = b.
Proof.
  intros Hr Hk. unfold Matches.
  now rewrite (Matches_flow_reaches _ _ _ Hr), Hk.
Qed.

Lemma Matches_all_pass (c : Condition) (event : github.Event) :
  (forall k, passes L c event k = true) -> Matches L c event = negb (Negate c).
Proof.
  intros H. unfold Matches. rewrite Matches_flow_sequence, sequence_passes.
  - reflexivity.
  - apply forallb_forall. intros k _. apply H.
Qed.

End Blocks.

(** ** Condition.Matches: early return per sub-check *)

(** C1.  [Matches] evaluates the blocks of the nine sub-checks in the fixed
    order.  At the first configured sub-check whose data is present and
    whose comparison fails it returns [c.Negate]: the blocks up to that one
    already return, whatever follows them.  It returns [!c.Negate] when
    every configured sub-check succeeds, and so when none is configured;
    the zero Condition (with [Negate] false) matches every event. *)
Theorem C1_Matches_early_return (L : GoLib) (c : Condition) (event : github.Event) :
  Matches_flow L c event
    = sequence L c event evaluation_order (Return (negb (Negate c)))
  /\ (forall k,
        reaches L c event k = true ->
        configured c k = true ->
        verdict_of L c event k = Fails ->
        (forall later,
            sequence L c event (before k ++ [k])%list later = Return (Negate c))
        /\ Matches L c event = Negate c)
  /\ ((forall k, configured c k = true -> verdict_of L c event k = Succeeds) ->
      Matches L c event = negb (Negate c))
  /\ ((forall k, configured c k = false) -> Matches L c event = negb (Negate c))
  /\ Matches L Condition_zero event = true.
Proof.
  split; [reflexivity|].
  split.
  { intros k Hr Hc Hv.
    assert (Hk : check L k c event = Return (Negate c)).
    { rewrite check_verdict, Hc, Hv. reflexivity. }
    split.
    - apply sequence_returns; assumption.
    - apply (Matches_returns L c event k); assumption. }
  split.
  { intros H. apply Matches_all_pass. intros k. unfold passes.
    destruct (configured c k) eqn:Hc; [|reflexivity].
    now rewrite (H k Hc). }
  split.
  { intros H. apply Matches_all_pass. intros k. unfold passes.
    now rewrite (H k). }
  reflexivity.
Qed.

(** The type sub-check of a negated condition fails on an event of another
    type: [Matches] returns [Negate], although the payload sub-check that
    follows would find no payload. *)
Lemma C1_witness :
  Matches GoStd.lib (set_Negate (cond_Type_PayloadAction "foo" "bar"))
    (event_of_type "baz" None) = true.
Proof.
  exact (proj2 (proj1 (proj2
           (C1_Matches_early_return GoStd.lib
              (set_Negate (cond_Type_PayloadAction "foo" "bar"))
              (event_of_type "baz" None)))
           SubType eq_refl eq_refl eq_refl)).
Defined.

(** ** Filter.Matches *)

Section FilterLoop.

Variable L : GoLib.
Variable event : github.Event.

Lemma Filter_range_forallb (cs : list Condition) :
  fst (Filter_range L cs event) = forallb (fun c => Matches L c event) cs.
Proof.
  induction cs as [|c cs IH]; cbn; [reflexivity|].
  destruct (Matches L c event); cbn; [|reflexivity].
  destruct (Filter_range L cs event). exact IH.
Qed.

Lemma Filter_range_stops (pre : list Condition) (c : Condition) (post : list Condition) :
  (forall x, In x pre -> Matches L x event = true) ->
  Matches L c event = false ->
  Filter_range L (pre ++ c :: post)%list event = (false, (pre ++ [c])%list).
Proof.
  intros Hpre Hc.
  induction pre as [|p pre IH]; cbn.
  - now rewrite Hc.
  - rewrite (Hpre p (or_introl eq_refl)). cbn.
    rewrite IH; [reflexivity|].
    intros x Hx. apply Hpre. now right.
Qed.

Lemma Filter_range_all (cs : list Condition) :
  fst (Filter_range L cs event) = true -> snd (Filter_range L cs event) = cs.
Proof.
  induction cs as [|c cs IH]; cbn; [reflexivity|].
  destruct (Matches L c event); cbn; [|discriminate].
  destruct (Filter_range L cs event) as [r ev]. cbn in *.
  intros H. now rewrite (IH H).
Qed.

End FilterLoop.

(** C2.  [Filter.Matches] is true exactly when every Condition of the
    Filter matches the event.  The loop stops at the first Condition that
    does not match: it has then called [Matches] on the Conditions up to
    that one and on no other.  A Filter without Conditions matches every
    event. *)
Theorem C2_Filter_Matches_universal (L : GoLib) (f : Filter) (event : github.Event) :
  (Filter_Matches L f event = true <->
   forall c, In c (Conditions f) -> Matches L c event = true)
  /\ (forall pre c post,
        Conditions f = (pre ++ c :: post)%list ->
        (forall x, In x pre -> Matches L x event = true) ->
        Matches L c event = false ->
        Filter_Matches L f event = false
        /\ Filter_evaluated L f event = (pre ++ [c])%list)
  /\ (Filter_Matches L f event = true -> Filter_evaluated L f event = Conditions f)
  /\ Filter_Matches L {| Conditions := [] |} event = true.
Proof.
  unfold Filter_Matches, Filter_evaluated.
  split.
  { rewrite Filter_range_forallb. apply forallb_forall. }
  split.
  { intros pre c post Hf Hpre Hc.
    now rewrite Hf, (Filter_range_stops L event pre c post Hpre Hc). }
  split.
  { apply Filter_range_all. }
  reflexivity.
Qed.

(** The filter of [TestFilter_matches] on its three events. *)
Lemma C2_witness :
  Filter_Matches GoStd.lib TestFilter (event_of_type "PushEvent" (Some false)) = false
  /\ Filter_evaluated GoStd.lib TestFilter (event_of_type "PushEvent" (Some false))
     = [cond_Public false; cond_Type "IssuesEvent"].
Proof.
  refine (proj1 (proj2
            (C2_Filter_Matches_universal GoStd.lib TestFilter
               (event_of_type "PushEvent" (Some false))))
            [cond_Public false] (cond_Type "IssuesEvent") [] eq_refl _ eq_refl).
  intros x [<-|[]]. reflexivity.
Defined.

(** [TestFilter_matches]. *)
Lemma TestFilter_matches :
  Filter_Matches GoStd.lib TestFilter (event_of_type "IssuesEvent" (Some false)) = true
  /\ Filter_Matches GoStd.lib TestFilter (event_of_type "IssuesEvent" (Some true)) = false
  /\ Filter_Matches GoStd.lib TestFilter (event_of_type "PushEvent" (Some false)) = false.
Proof. repeat split. Qed.

(** ** Absent data, malformed patterns and negation *)

Section Negation.

Variable L : GoLib.

Lemma configured_with_Negate (n : bool) (c : Condition) (k : subcheck) :
  configured (with_Negate n c) k = configured c k.
Proof. destruct k; reflexivity. Qed.

Lemma verdict_with_Negate (n : bool) (c : Condition) (event : github.Event) (k : subcheck) :
  verdict_of L (with_Negate n c) event k = verdict_of L c event k.
Proof. destruct k; reflexivity. Qed.

Lemma reaches_with_Negate (n : bool) (c : Condition) (event : github.Event) (k : subcheck) :
  reaches L (with_Negate n c) event k = reaches L c event k.
Proof.
  unfold reaches. induction (before k) as [|k' ks IH]; cbn; [reflexivity|].
  rewrite IH. unfold passes.
  now rewrite configured_with_Negate, verdict_with_Negate.
Qed.

(** A payload sub-check whose payload is absent or does not decode lacks
    its data. *)
Lemma undecoded_DataAbsent (c : Condition) (event : github.Event) (k : subcheck) :
  payload_dependent k = true ->
  payload_decodes L event k = false ->
  verdict_of L c event k = DataAbsent.
Proof.
  unfold payload_decodes.
  destruct k; try discriminate; intros _;
    cbn [verdict_of decodes]; unfold on_payload;
    destruct (github.RawPayload event) as [raw|]; try reflexivity;
    match goal with |- is_some ?d = false -> _ => destruct d end;
    cbn; congruence.
Qed.

(** A regexp sub-check on a decoded payload with a pattern that does not
    compile. *)
Lemma uncompiled_PatternMalformed (c : Condition) (event : github.Event) (k : subcheck) :
  regexp_subcheck k = true ->
  regexp_Compile L (pattern_of c k) = None ->
  payload_decodes L event k = true ->
  verdict_of L c event k = PatternMalformed.
Proof.
  unfold payload_decodes.
  destruct k; try discriminate; intros _ Hp;
    cbn [verdict_of decodes pattern_of] in *; unfold on_payload, searched;
    destruct (github.RawPayload event) as [raw|]; try discriminate;
    match goal with |- is_some ?d = true -> _ => destruct d end;
    cbn; try discriminate; now rewrite Hp.
Qed.

Lemma not_before_itself (k : subcheck) : ~ In k (before k).
Proof. destruct k; cbn; intuition discriminate. Qed.

Lemma not_after_itself (k : subcheck) : ~ In k (after k).
Proof. destruct k; cbn; intuition discriminate. Qed.

Lemma all_in_order (k : subcheck) : In k evaluation_order.
Proof. destruct k; cbn; tauto. Qed.

(** With [k] the only configured sub-check, every other one is unset. *)
Lemma only_configured (c : Condition) (k : subcheck) :
  filter (configured c) evaluation_order = [k] ->
  configured c k = true /\ forall k', k' <> k -> configured c k' = false.
Proof.
  intros H. split.
  - assert (Hin : In k (filter (configured c) evaluation_order)).
    { rewrite H. now left. }
    apply filter_In in Hin. apply Hin.
  - intros k' Hne. destruct (configured c k') eqn:Hc; [|reflexivity].
    assert (Hin : In k' (filter (configured c) evaluation_order)).
    { apply filter_In. split; [apply all_in_order | exact Hc]. }
    rewrite H in Hin. destruct Hin as [->|[]]. now elim Hne.
Qed.

(** With [k] the only configured sub-check, its block alone decides. *)
Lemma Matches_only (c : Condition) (event : github.Event) (k : subcheck) :
  filter (configured c) evaluation_order = [k] ->
  Matches L c event
  = match flow_of c k (verdict_of L c event k) with
    | Return b => b
    | Next => negb (Negate c)
    end.
Proof.
  intros H. destruct (only_configured c k H) as [Hk Hother].
  assert (Hpass : forall ks, ~ In k ks -> forallb (passes L c event) ks = true).
  { intros ks Hnot. apply forallb_forall. intros k' Hin. unfold passes.
    rewrite Hother; [reflexivity|]. intros ->. now apply Hnot. }
  unfold Matches.
  rewrite (Matches_flow_reaches L c event k (Hpass _ (not_before_itself k))).
  rewrite check_verdict, Hk.
  rewrite (sequence_passes L c event _ _ (Hpass _ (not_after_itself k))).
  now destruct (flow_of c k (verdict_of L c event k)).
Qed.

End Negation.

(** C3.  A payload that is present but lacks the path of the sub-check
    decodes without an error, the field keeping its zero value: the
    sub-check then fails its comparison and [Matches] returns [c.Negate],
    which is [true] for a negated condition.  So it is for a payload
    without an action key and for one whose milestone is [null].  A value
    of the wrong kind at the path is an error of the decoder, and there
    [Matches] returns [false] whatever [Negate] is. *)
Theorem C3_missing_path_follows_Negate :
  Matches GoStd.lib (set_Negate (cond_PayloadAction "opened"))
    (event_of_payload payload_empty_object) = true
  /\ Matches GoStd.lib (set_Negate (cond_PayloadIssueMilestoneTitle "nomatch"))
       (event_of_payload payload_null_milestone) = true
  /\ GoStd.json_Unmarshal_action payload_empty_object = Some ""
  /\ GoStd.json_Unmarshal_issue_milestone_title payload_null_milestone = Some ""
  /\ Matches GoStd.lib (set_Negate (cond_PayloadAction "opened"))
       (event_of_payload payload_action_number) = false
  /\ Matches GoStd.lib (cond_PayloadAction "opened")
       (event_of_payload payload_action_number) = false.
Proof. vm_compute. repeat split. Qed.

(** C4 as stated does not hold for a regexp sub-check whose pattern does
    not compile: the payload is present and decodes, and [Matches]
    is [false] with [Negate] set and with [Negate] unset. *)
Lemma C4_counterexample :
  filter (configured (cond_PayloadIssueTitleRegexp pattern_unclosed)) evaluation_order
    = [SubPayloadIssueTitleRegexp]
  /\ payload_decodes GoStd.lib (event_of_payload payload_title_x)
       SubPayloadIssueTitleRegexp = true
  /\ Matches GoStd.lib (with_Negate true (cond_PayloadIssueTitleRegexp pattern_unclosed))
       (event_of_payload payload_title_x)
     <> negb (Matches GoStd.lib
                (with_Negate false (cond_PayloadIssueTitleRegexp pattern_unclosed))
                (event_of_payload payload_title_x)).
Proof. vm_compute. repeat split. discriminate. Qed.

(** C4, amended.  For a Condition with exactly one configured sub-check:
    when the data of the sub-check is present and, for a regexp sub-check,
    the pattern compiles (the sub-check succeeds or fails its comparison),
    [Matches] with [Negate] set is the negation of [Matches] with [Negate]
    unset; when the payload of a payload sub-check is absent or does not
    decode, or the pattern of a regexp sub-check does not compile, both
    return [false]. *)
Theorem C4_negation_law (L : GoLib) (c : Condition) (event : github.Event) (k : subcheck) :
  filter (configured c) evaluation_order = [k] ->
  (verdict_of L c event k = Succeeds \/ verdict_of L c event k = Fails ->
   Matches L (with_Negate true c) event = negb (Matches L (with_Negate false c) event))
  /\ (payload_dependent k = true ->
      payload_decodes L event k = false ->
      Matches L (with_Negate true c) event = false
      /\ Matches L (with_Negate false c) event = false)
  /\ (regexp_subcheck k = true ->
      regexp_Compile L (pattern_of c k) = None ->
      payload_decodes L event k = true ->
      Matches L (with_Negate true c) event = false
      /\ Matches L (with_Negate false c) event = false).
Proof.
  intros H.
  assert (Hn : forall n, filter (configured (with_Negate n c)) evaluation_order = [k]).
  { intros n. rewrite <- H. apply filter_ext. intros k'. apply configured_with_Negate. }
  assert (HM : forall n, Matches L (with_Negate n c) event
                         = match flow_of (with_Negate n c) k (verdict_of L c event k) with
                           | Return b => b
                           | Next => negb n
                           end).
  { intros n. rewrite (Matches_only L _ event k (Hn n)), verdict_with_Negate.
    reflexivity. }
  rewrite !HM.
  split; [|split].
  - intros [Hv|Hv]; rewrite Hv; reflexivity.
  - intros Hp Hd. rewrite (undecoded_DataAbsent L c event k Hp Hd). cbn.
    rewrite Hp. split; reflexivity.
  - intros Hr Hc Hd. rewrite (uncompiled_PatternMalformed L c event k Hr Hc Hd).
    split; reflexivity.
Qed.

(** Only the action sub-check is configured; the payload of the event has
    another action. *)
Lemma C4_witness :
  Matches GoStd.lib (with_Negate true (cond_PayloadAction "created"))
    (event_of_payload (GoStd.js "{'action':'opened'}"))
  = negb (Matches GoStd.lib (with_Negate false (cond_PayloadAction "created"))
            (event_of_payload (GoStd.js "{'action':'opened'}"))).
Proof.
  exact (proj1 (C4_negation_law GoStd.lib (cond_PayloadAction "created")
                  (event_of_payload (GoStd.js "{'action':'opened'}"))
                  SubPayloadAction eq_refl)
           (or_intror eq_refl)).
Defined.

(** An ID sub-check on an event without the reference: the block returns
    [c.Negate], so the negated condition matches. *)
Lemma nil_reference_follows_Negate :
  Matches GoStd.lib (cond_OrganizationID 1) (event_of_org None) = false
  /\ Matches GoStd.lib (set_Negate (cond_OrganizationID 1)) (event_of_org None) = true.
Proof. split; reflexivity. Qed.

(** [TestCondition_organizationID]. *)
Lemma TestCondition_organizationID :
  Matches GoStd.lib (cond_OrganizationID 1) (event_of_org None) = false
  /\ Matches GoStd.lib (cond_OrganizationID 1)
       (event_of_org (Some {| github.Organization_ID := Some 1%Z |})) = true
  /\ Matches GoStd.lib (cond_OrganizationID 1)
       (event_of_org (Some {| github.Organization_ID := Some 2%Z |})) = false.
Proof. repeat split. Qed.

(** C5 as stated does not hold when a sub-check evaluated earlier fails
    its comparison: the type sub-check of this negated condition
    returns [Negate] before the action sub-check looks for the payload. *)
Lemma C5_counterexample :
  configured (set_Negate (cond_Type_PayloadAction "foo" "bar")) SubPayloadAction = true
  /\ github.RawPayload (event_of_type "baz" None) = None
  /\ Matches GoStd.lib (set_Negate (cond_Type_PayloadAction "foo" "bar"))
       (event_of_type "baz" None) = true.
Proof. repeat split. Qed.

(** C5, amended.  When a payload sub-check is configured and the raw
    payload is nil or does not decode into the shape the sub-check expects,
    the block of the sub-check returns [false]; when moreover the
    evaluation reaches it (every sub-check before it is unset or
    succeeds), [Matches] returns [false] there, whatever follows and
    whatever [Negate] is.  For a nil payload it is enough that some
    payload sub-check is configured and that the type sub-check is unset
    or succeeds. *)
Theorem C5_absent_payload_fails :
  (forall L c event k,
      payload_dependent k = true ->
      configured c k = true ->
      payload_decodes L event k = false ->
      check L k c event = Return false
      /\ (reaches L c event k = true ->
          (forall later, sequence L c event (before k ++ [k])%list later = Return false)
          /\ forall n, Matches L (with_Negate n c) event = false))
  /\ (forall L c event,
        github.RawPayload event = None ->
        existsb (fun k => payload_dependent k && configured c k) evaluation_order = true ->
        passes L c event SubType = true ->
        forall n, Matches L (with_Negate n c) event = false).
Proof.
  assert (Hblock : forall L c event k,
             payload_dependent k = true -> configured c k = true ->
             payload_decodes L event k = false ->
             check L k c event = Return false).
  { intros L c event k Hp Hc Hd. rewrite check_verdict, Hc.
    rewrite (undecoded_DataAbsent L c event k Hp Hd). cbn. now rewrite Hp. }
  assert (Hreach : forall L c event k,
             payload_dependent k = true -> configured c k = true ->
             payload_decodes L event k = false -> reaches L c event k = true ->
             forall n, Matches L (with_Negate n c) event = false).
  { intros L c event k Hp Hc Hd Hr n. apply (Matches_returns L _ event k).
    - now rewrite reaches_with_Negate.
    - apply Hblock; trivial. }
  split.
  - intros L c event k Hp Hc Hd. split; [now apply Hblock|].
    intros Hr. split.
    + apply (sequence_returns L c event k false); [assumption | now apply Hblock].
    + now apply (Hreach L c event k).
  - intros L c event Hnil Hsome Htype.
    assert (Hd : forall k, payload_decodes L event k = false).
    { intros k. unfold payload_decodes. now rewrite Hnil. }
    cbn [existsb evaluation_order payload_dependent andb orb] in Hsome.
    destruct (configured c SubPayloadAction) eqn:H1.
    { apply (Hreach L c event SubPayloadAction); trivial.
      cbn. now rewrite Htype. }
    destruct (configured c SubPayloadIssueLabel) eqn:H2.
    { apply (Hreach L c event SubPayloadIssueLabel); trivial.
      cbn. unfold passes at 2. now rewrite Htype, H1. }
    destruct (configured c SubPayloadIssueMilestoneTitle) eqn:H3.
    { apply (Hreach L c event SubPayloadIssueMilestoneTitle); trivial.
      cbn. unfold passes at 2 3. now rewrite Htype, H1, H2. }
    destruct (configured c SubPayloadIssueTitleRegexp) eqn:H4.
    { apply (Hreach L c event SubPayloadIssueTitleRegexp); trivial.
      cbn. unfold passes at 2 3 4. now rewrite Htype, H1, H2, H3. }
    destruct (configured c SubPayloadIssueBodyRegexp) eqn:H5.
    { apply (Hreach L c event SubPayloadIssueBodyRegexp); trivial.
      cbn. unfold passes at 2 3 4 5. now rewrite Htype, H1, H2, H3, H4. }
    discriminate Hsome.
Qed.

(** A negated condition on the action, and an event without payload. *)
Lemma C5_witness :
  Matches GoStd.lib (with_Negate true (cond_PayloadAction "opened")) Event_zero = false.
Proof.
  exact (proj2 (proj2 (proj1 C5_absent_payload_fails GoStd.lib
                         (cond_PayloadAction "opened") Event_zero SubPayloadAction
                         eq_refl eq_refl eq_refl)
                  eq_refl)
           true).
Defined.

(** C6.  When the pattern of a configured regexp sub-check (title or
    body) does not compile and the payload decodes, the block of the
    sub-check returns [false], not [c.Negate]; so does [Matches] when the
    evaluation reaches the sub-check. *)
Theorem C6_malformed_regexp_fails (L : GoLib) (c : Condition) (event : github.Event)
    (k : subcheck) :
  regexp_subcheck k = true ->
  configured c k = true ->
  regexp_Compile L (pattern_of c k) = None ->
  payload_decodes L event k = true ->
  check L k c event = Return false
  /\ (reaches L c event k = true ->
      (forall later, sequence L c event (before k ++ [k])%list later = Return false)
      /\ Matches L c event = false).
Proof.
  intros Hr Hc Hp Hd.
  assert (Hk : check L k c event = Return false).
  { rewrite check_verdict, Hc.
    now rewrite (uncompiled_PatternMalformed L c event k Hr Hp Hd). }
  split; [exact Hk|].
  intros Hreach. split.
  - now apply sequence_returns.
  - now apply (Matches_returns L c event k).
Qed.

(** A negated condition whose title pattern is an unclosed group. *)
Lemma C6_witness :
  Matches GoStd.lib (set_Negate (cond_PayloadIssueTitleRegexp pattern_unclosed))
    (event_of_payload payload_title_x) = false.
Proof.
  exact (proj2 (proj2 (C6_malformed_regexp_fails GoStd.lib
                         (set_Negate (cond_PayloadIssueTitleRegexp pattern_unclosed))
                         (event_of_payload payload_title_x)
                         SubPayloadIssueTitleRegexp eq_refl eq_refl eq_refl eq_refl)
                  eq_refl)).
Defined.

(** ** Comparisons *)

Lemma existsb_Permutation (p : string -> bool) (l l' : list string) :
  Permutation l l' -> existsb p l = existsb p l'.
Proof.
  induction 1 as [|x l l' _ IH|x y l|l l' l'' _ IH1 _ IH2]; cbn.
  - reflexivity.
  - now rewrite IH.
  - now destruct (p x), (p y).
  - now rewrite IH1.
Qed.

Lemma Next_iff (cond : bool) (b : bool) :
  (if cond then Return b else Next) = Next <-> cond = false.
Proof. destruct cond; split; congruence. Qed.

(** C7.  The type sub-check lets the evaluation go on exactly when the
    configured type and the type of the event are the same string.  The
    action and milestone-title sub-checks do so exactly when the decoded
    string and the configured one are equal after [strings.ToLower]; the
    label sub-check exactly when some decoded label is equal to the
    configured one after [strings.ToLower], in whatever order the labels
    come.  On the test payloads: lbl is found among LBL and x and not in
    the empty list, OPENED matches opened and Opened, and the type
    issuesevent does not match IssuesEvent. *)
Theorem C7_case_sensitivity :
  (forall c event,
      Type_ c <> "" ->
      (check_Type c event = Next <-> github.GetType event = Type_ c))
  /\ (forall L c event raw action,
        PayloadAction c <> "" ->
        github.RawPayload event = Some raw ->
        Unmarshal_action L raw = Some action ->
        (check_PayloadAction L c event = Next <->
         strings_ToLower L action = strings_ToLower L (PayloadAction c)))
  /\ (forall L c event raw labels,
        PayloadIssueLabel c <> "" ->
        github.RawPayload event = Some raw ->
        Unmarshal_issue_labels L raw = Some labels ->
        (check_PayloadIssueLabel L c event = Next <->
         exists label, In label labels
                       /\ strings_ToLower L label = strings_ToLower L (PayloadIssueLabel c)))
  /\ (forall L want labels labels',
        Permutation labels labels' ->
        label_found L want labels = label_found L want labels')
  /\ (forall L c event raw title,
        PayloadIssueMilestoneTitle c <> "" ->
        github.RawPayload event = Some raw ->
        Unmarshal_issue_milestone_title L raw = Some title ->
        (check_PayloadIssueMilestoneTitle L c event = Next <->
         strings_ToLower L title = strings_ToLower L (PayloadIssueMilestoneTitle c)))
  /\ Matches GoStd.lib (cond_Type "IssuesEvent") (event_of_type "IssuesEvent" None) = true
  /\ Matches GoStd.lib (cond_Type "issuesevent") (event_of_type "IssuesEvent" None) = false
  /\ Matches GoStd.lib (cond_PayloadAction "OPENED") (event_of_payload payload_opened) = true
  /\ Matches GoStd.lib (cond_PayloadAction "OPENED") (event_of_payload payload_Opened) = true
  /\ Matches GoStd.lib (cond_PayloadAction "CREATED") (event_of_payload payload_opened) = false
  /\ Matches GoStd.lib (cond_PayloadIssueLabel "lbl") (event_of_payload payload_labels) = true
  /\ Matches GoStd.lib (cond_PayloadIssueLabel "lbl")
       (event_of_payload payload_labels_swapped) = true
  /\ Matches GoStd.lib (cond_PayloadIssueLabel "lbl")
       (event_of_payload payload_no_labels) = false
  /\ Matches GoStd.lib (cond_PayloadIssueMilestoneTitle "TITLE")
       (event_of_payload payload_milestone) = true.
Proof.
  split.
  { intros c event Hc. unfold check_Type.
    apply String.eqb_neq in Hc. rewrite Hc. cbn.
    rewrite Next_iff, negb_false_iff. apply String.eqb_eq. }
  split.
  { intros L c event raw action Hc Hraw Hdec. unfold check_PayloadAction.
    apply String.eqb_neq in Hc. rewrite Hc, Hraw, Hdec. cbn.
    rewrite Next_iff, negb_false_iff. apply String.eqb_eq. }
  split.
  { intros L c event raw labels Hc Hraw Hdec. unfold check_PayloadIssueLabel.
    apply String.eqb_neq in Hc. rewrite Hc, Hraw, Hdec. cbn.
    rewrite Next_iff, negb_false_iff, label_found_existsb, existsb_exists.
    unfold equal_fold. split; intros [l [Hin Hl]]; exists l; split; trivial;
      now apply String.eqb_eq. }
  split.
  { intros L want labels labels' Hperm. rewrite !label_found_existsb.
    now apply existsb_Permutation. }
  split.
  { intros L c event raw title Hc Hraw Hdec. unfold check_PayloadIssueMilestoneTitle.
    apply String.eqb_neq in Hc. rewrite Hc, Hraw, Hdec. cbn.
    rewrite Next_iff, negb_false_iff. apply String.eqb_eq. }
  vm_compute. repeat split.
Qed.

(** The action of the payload is opened, the condition asks for OPENED. *)
Lemma C7_witness :
  check_PayloadAction GoStd.lib (cond_PayloadAction "OPENED")
    (event_of_payload payload_opened) = Next.
Proof.
  exact (proj2 (proj1 (proj2 C7_case_sensitivity)
                  GoStd.lib (cond_PayloadAction "OPENED")
                  (event_of_payload payload_opened) payload_opened "opened"
                  (fun H => eq_ind "OPENED"
                              (fun s => match s with "" => False | _ => True end) I _ H)
                  eq_refl eq_refl)
           eq_refl).
Defined.

(** ** Regular expressions *)

Lemma prefix_match_split (r : GoStd.re) (s : string) :
  GoStd.prefix_match r s = true <->
  exists m rest, s = m ++ rest /\ GoStd.full_match r m = true.
Proof.
  revert r. induction s as [|ch s IH]; intros r; cbn.
  - rewrite orb_false_r. split.
    + intros H. now exists "", "".
    + intros (m & rest & Hs & Hm). destruct m; [exact Hm | discriminate].
  - rewrite orb_true_iff, IH. split.
    + intros [H | (m & rest & Hs & Hm)].
      * now exists "", (String ch s).
      * exists (String ch m), rest. split; [cbn; now rewrite Hs | exact Hm].
    + intros (m & rest & Hs & Hm). destruct m as [|ch' m].
      * now left.
      * right. cbn in Hs. injection Hs as -> ->. now exists m, rest.
Qed.

Lemma MatchString_split (r : GoStd.re) (s : string) :
  GoStd.MatchString r s = true <->
  exists skipped m rest, s = skipped ++ m ++ rest /\ GoStd.full_match r m = true.
Proof.
  induction s as [|ch s IH]; cbn.
  - rewrite orb_false_r.
    change (GoStd.nullable r || false = true) with (GoStd.prefix_match r "" = true).
    rewrite prefix_match_split. split.
    + intros (m & rest & Hs & Hm). now exists "", m, rest.
    + intros (sk & m & rest & Hs & Hm). destruct sk; [|discriminate].
      now exists m, rest.
  - change (GoStd.nullable r || GoStd.prefix_match (GoStd.deriv ch r) s)
      with (GoStd.prefix_match r (String ch s)).
    rewrite orb_true_iff, prefix_match_split, IH. split.
    + intros [(m & rest & Hs & Hm) | (sk & m & rest & Hs & Hm)].
      * now exists "", m, rest.
      * exists (String ch sk), m, rest. split; [cbn; now rewrite Hs | exact Hm].
    + intros (sk & m & rest & Hs & Hm). destruct sk as [|ch' sk].
      * left. now exists m, rest.
      * right. cbn in Hs. injection Hs as -> ->. now exists sk, m, rest.
Qed.

(** C8.  A regexp sub-check compiles the pattern of the condition in the
    evaluation itself and searches the decoded text with [MatchString]: a
    match of any part of the text is enough.  The pattern of the test,
    with its case-insensitive flag, matches the event titled This will
    Match, although it does not match that title as a whole, and does not
    match the event titled This will Not Match. *)
Theorem C8_regexp_search :
  (forall L c event raw title,
      PayloadIssueTitleRegexp c <> "" ->
      github.RawPayload event = Some raw ->
      Unmarshal_issue_title L raw = Some title ->
      check_PayloadIssueTitleRegexp L c event
      = match regexp_Compile L (PayloadIssueTitleRegexp c) with
        | None => Return false
        | Some re => if Regexp_MatchString L re title then Next else Return (Negate c)
        end)
  /\ (forall L c event raw body,
        PayloadIssueBodyRegexp c <> "" ->
        github.RawPayload event = Some raw ->
        Unmarshal_issue_body L raw = Some body ->
        check_PayloadIssueBodyRegexp L c event
        = match regexp_Compile L (PayloadIssueBodyRegexp c) with
          | None => Return false
          | Some re => if Regexp_MatchString L re body then Next else Return (Negate c)
          end)
  /\ (forall re text,
        Regexp_MatchString GoStd.lib re text = true <->
        exists skipped m rest,
          text = skipped ++ m ++ rest /\ GoStd.full_match re m = true)
  /\ Matches GoStd.lib (cond_PayloadIssueTitleRegexp pattern_will_match)
       (event_of_payload payload_title_match) = true
  /\ Matches GoStd.lib (cond_PayloadIssueTitleRegexp pattern_will_match)
       (event_of_payload payload_title_nomatch) = false
  /\ GoStd.json_Unmarshal_issue_title payload_title_match = Some "This will Match"
  /\ option_map (fun re => GoStd.full_match re "This will Match")
       (GoStd.Compile pattern_will_match) = Some false
  /\ option_map (fun re => GoStd.full_match re "will Match")
       (GoStd.Compile pattern_will_match) = Some true.
Proof.
  split.
  { intros L c event raw title Hc Hraw Hdec. unfold check_PayloadIssueTitleRegexp.
    apply String.eqb_neq in Hc. rewrite Hc, Hraw, Hdec. cbn.
    destruct (regexp_Compile L _) as [re|]; [|reflexivity].
    now destruct (Regexp_MatchString L re title). }
  split.
  { intros L c event raw body Hc Hraw Hdec. unfold check_PayloadIssueBodyRegexp.
    apply String.eqb_neq in Hc. rewrite Hc, Hraw, Hdec. cbn.
    destruct (regexp_Compile L _) as [re|]; [|reflexivity].
    now destruct (Regexp_MatchString L re body). }
  split.
  { intros re text. apply MatchString_split. }
  vm_compute. repeat split.
Qed.

(** The block of the title sub-check on the matching test event. *)
Lemma C8_witness :
  check_PayloadIssueTitleRegexp GoStd.lib (cond_PayloadIssueTitleRegexp pattern_will_match)
    (event_of_payload payload_title_match)
  = match regexp_Compile GoStd.lib pattern_will_match with
    | None => Return false
    | Some re =>
        if Regexp_MatchString GoStd.lib re "This will Match" then Next else Return false
    end.
Proof.
  exact (proj1 C8_regexp_search GoStd.lib
           (cond_PayloadIssueTitleRegexp pattern_will_match)
           (event_of_payload payload_title_match) payload_title_match "This will Match"
           (fun H => eq_ind pattern_will_match
                       (fun s => match s with "" => False | _ => True end) I _ H)
           eq_refl eq_refl).
Defined.

(** ** Rendering *)

(** C9.  [String] renders the configured sub-checks in the order of
    evaluation, joined with AND and phrased according to [Negate]: the
    negated type condition reads: If type is not "foo"; the negated
    condition on an event that is not public reads: If event is not not
    public. *)
Theorem C9_Condition_String :
  (forall c,
      Condition_String c
      = "If " ++ join " AND "
                   (map (fun k => clause k c) (filter (configured c) evaluation_order)))
  /\ Condition_String (set_Negate (cond_Type "foo")) = text "If type is not 'foo'"
  /\ Condition_String (set_Negate (cond_Public false)) = "If event is not not public"
  /\ Condition_String (cond_Type_PayloadAction "foo" "bar")
     = text "If type is 'foo' AND payload action is 'bar'"
  /\ Condition_String (set_Negate (cond_Type_PayloadAction "foo" "bar"))
     = text "If type is not 'foo' AND payload action is not 'bar'".
Proof. split; [reflexivity|]. vm_compute. repeat split. Qed.

(** The other rows of the table of [TestFilter_string]. *)
Lemma TestFilter_string :
  Condition_String (cond_Type "foo") = text "If type is 'foo'"
  /\ Condition_String (cond_PayloadAction "foo") = text "If payload action is 'foo'"
  /\ Condition_String (set_Negate (cond_PayloadAction "foo"))
     = text "If payload action is not 'foo'"
  /\ Condition_String (cond_PayloadIssueLabel "foo")
     = text "If payload issue label contains 'foo'"
  /\ Condition_String (set_Negate (cond_PayloadIssueLabel "foo"))
     = text "If payload issue label does not contain 'foo'"
  /\ Condition_String (cond_PayloadIssueMilestoneTitle "foo")
     = text "If payload issue milestone title is 'foo'"
  /\ Condition_String (set_Negate (cond_PayloadIssueMilestoneTitle "foo"))
     = text "If payload issue milestone title is not 'foo'"
  /\ Condition_String (cond_PayloadIssueTitleRegexp "foo")
     = text "If payload issue title matches regexp 'foo'"
  /\ Condition_String (set_Negate (cond_PayloadIssueBodyRegexp "foo"))
     = text "If payload issue body does not match regexp 'foo'"
  /\ Condition_String (cond_PayloadIssueTitleRegexp (text "[']"))
     = "If payload issue title matches regexp " ++ text "'[\']'"
  /\ Condition_String (cond_Public true) = "If event is public"
  /\ Condition_String (cond_Public false) = "If event is not public"
  /\ Condition_String (set_Negate (cond_Public true)) = "If event is not public"
  /\ Condition_String (cond_OrganizationID 1) = "If organization ID is 1"
  /\ Condition_String (set_Negate (cond_OrganizationID 1)) = "If organization ID is not 1"
  /\ Condition_String (cond_RepositoryID 1) = "If repository ID is 1"
  /\ Condition_String (set_Negate (cond_RepositoryID 1)) = "If repository ID is not 1".
Proof. vm_compute. repeat split. Qed.

(** ** Visibility *)

(** C10.  When [ComparePublic] is set and the event has no visibility
    field, the event counts as not public: the sub-check succeeds exactly
    when [Public] is false, its verdict is never that data is absent, and
    on the mismatch its block returns [c.Negate], as does [Matches] when
    the evaluation reaches it. *)
Theorem C10_absent_visibility (L : GoLib) (c : Condition) (event : github.Event) :
  ComparePublic c = true ->
  github.Public event = None ->
  verdict_of L c event SubVisibility = (if Public c then Fails else Succeeds)
  /\ check_Public c event = (if Public c then Return (Negate c) else Next)
  /\ (Public c = true ->
      reaches L c event SubVisibility = true ->
      Matches L c event = Negate c).
Proof.
  intros Hc He.
  assert (Hk : check_Public c event = (if Public c then Return (Negate c) else Next)).
  { unfold check_Public, github.GetPublic. rewrite Hc, He. now destruct (Public c). }
  split; [|split].
  - cbn. unfold github.GetPublic. rewrite He. now destruct (Public c).
  - exact Hk.
  - intros Hp Hr. apply (Matches_returns L c event SubVisibility _ Hr).
    cbn [check]. now rewrite Hk, Hp.
Qed.

(** A negated condition on public events, and an event without a
    visibility field and without payload. *)
Lemma C10_witness :
  Matches GoStd.lib (set_Negate (cond_Public true)) Event_zero = true.
Proof.
  exact (proj2 (proj2 (C10_absent_visibility GoStd.lib (set_Negate (cond_Public true))
                         Event_zero eq_refl eq_refl))
           eq_refl eq_refl).
Defined.

(** ** The tables of the repository's tests

    Each row lists, for one condition of the table, whether it matches
    each event of the table. *)

Lemma TestCondition_type :
  matching [cond_Type "NonExistentEvent"; cond_Type "IssuesEvent";
            set_Negate (cond_Type "NonExistentEvent")]
           [event_of_type "IssuesEvent" None]
  = [[false]; [true]; [true]].
Proof. reflexivity. Qed.

Lemma TestCondition_payloadAction :
  matching [cond_PayloadAction "opened"; cond_PayloadAction "CREATED"]
           [event_of_payload payload_opened; event_of_payload payload_created]
  = [[true; false]; [false; true]].
Proof. vm_compute. reflexivity. Qed.

Lemma TestCondition_payloadIssueLabel :
  matching [cond_PayloadIssueLabel "nomatch"; cond_PayloadIssueLabel "lbl"]
           [event_of_payload payload_no_labels; event_of_payload payload_labels]
  = [[false; false]; [false; true]].
Proof. vm_compute. reflexivity. Qed.

Lemma TestCondition_payloadIssueMilestoneTitle :
  matching [cond_PayloadIssueMilestoneTitle "nomatch";
            cond_PayloadIssueMilestoneTitle "title"]
           [event_of_payload payload_null_milestone; event_of_payload payload_milestone]
  = [[false; false]; [false; true]].
Proof. vm_compute. reflexivity. Qed.

Lemma TestCondition_payloadIssueTitleRegexp :
  matching [cond_PayloadIssueTitleRegexp "not a match";
            cond_PayloadIssueTitleRegexp pattern_will_match]
           [event_of_payload payload_title_match; event_of_payload payload_title_nomatch]
  = [[false; false]; [true; false]].
Proof. vm_compute. reflexivity. Qed.

Lemma TestCondition_payloadIssueBodyRegexp :
  matching [cond_PayloadIssueBodyRegexp "not a match";
            cond_PayloadIssueBodyRegexp pattern_will_match]
           [event_of_payload payload_body_match; event_of_payload payload_body_nomatch]
  = [[false; false]; [true; false]].
Proof. vm_compute. reflexivity. Qed.

Lemma TestCondition_public :
  matching [cond_Public true; cond_Public false]
           [event_of_public true; event_of_public false]
  = [[true; false]; [false; true]].
Proof. reflexivity. Qed.

Lemma TestCondition_repositoryID :
  matching [cond_RepositoryID 1; cond_RepositoryID 2]
           [event_of_repo None;
            event_of_repo (Some {| github.Repository_ID := Some 1%Z |});
            event_of_repo (Some {| github.Repository_ID := Some 2%Z |})]
  = [[false; true; false]; [false; false; true]].
Proof. reflexivity. Qed.

(** The decoder on texts off the beaten track: a surrogate pair, a key in
    capitals, a repeated key with [null], a number with a leading zero, a
    comma before the closing brace, and labels decoded three times into
    one slice. *)
Lemma json_Unmarshal_examples :
  GoStd.json_Unmarshal_action (GoStd.js "{'action':'\ud83d\ude00\n'}")
  = Some (GoStd.EncodeRune 128512 ++ String (GoStd.byte 10) "")
  /\ GoStd.json_Unmarshal_action (GoStd.js "{'ACTION':'opened', 'action':null}")
     = Some "opened"
  /\ GoStd.json_Unmarshal_action (GoStd.js "{'action':'a', 'n':01}") = None
  /\ GoStd.json_Unmarshal_action (GoStd.js "{'action':'a',}") = None
  /\ GoStd.json_Unmarshal_action (GoStd.js "null") = Some ""
  /\ GoStd.json_Unmarshal_action (GoStd.js "[]") = None
  /\ GoStd.json_Unmarshal_issue_labels
       (GoStd.js "{'issue':{'labels':['a','b'],'labels':['c'],'labels':['d',null]}}")
     = Some ["d"; "b"]
  /\ GoStd.json_Unmarshal_issue_labels (GoStd.js "{'issue':{'labels':['a',1]}}") = None.
Proof. vm_compute. repeat split. Qed.

(** Patterns that do not compile, and a search. *)
Lemma regexp_examples :
  GoStd.Compile "(" = None
  /\ GoStd.Compile "a)" = None
  /\ GoStd.Compile "*a" = None
  /\ GoStd.Compile "a**" = None
  /\ option_map (fun re => GoStd.MatchString re "xxabac") (GoStd.Compile "(a|b)+c")
     = Some true
  /\ option_map (fun re => GoStd.MatchString re "xxabab") (GoStd.Compile "(a|b)+c")
     = Some false.
Proof. vm_compute. repeat split. Qed.

(** * Further properties of the matching engine *)

Section Stopping.

Variable L : GoLib.

(** A sub-check that does not pass returns: [c.Negate] when it is
    negatable, [false] otherwise. *)
Lemma check_stops (c : Condition) (event : github.Event) (k : subcheck) :
  passes L c event k = false ->
  check L k c event = Return (negatable L c event k && Negate c).
Proof.
  unfold passes, negatable. rewrite check_verdict.
  destruct (configured c k); [|discriminate].
  destruct (verdict_of L c event k); cbn; try discriminate; intros _;
    try reflexivity.
  now destruct (payload_dependent k).
Qed.

Lemma sequence_first_stopping (c : Condition) (event : github.Event)
    (ks : list subcheck) (later : flow) :
  sequence L c event ks later
  = match find (fun k => negb (passes L c event k)) ks with
    | None => later
    | Some k => Return (negatable L c event k && Negate c)
    end.
Proof.
  induction ks as [|k ks IH]; [reflexivity|].
  change (sequence L c event (k :: ks) later)
    with (check L k c event ;; sequence L c event ks later).
  cbn [find]. destruct (passes L c event k) eqn:Hk; cbn [negb].
  - now rewrite (passes_Next L c event k Hk).
  - now rewrite (check_stops c event k Hk).
Qed.

(** [Matches] is decided by the first sub-check that does not pass. *)
Lemma Matches_first_stopping (c : Condition) (event : github.Event) :
  Matches L c event
  = match first_stopping L c event with
    | None => negb (Negate c)
    | Some k => negatable L c event k && Negate c
    end.
Proof.
  unfold Matches, first_stopping.
  rewrite Matches_flow_sequence, sequence_first_stopping.
  now destruct (find _ evaluation_order).
Qed.

Lemma find_none_forallb (p : subcheck -> bool) (ks : list subcheck) :
  find (fun k => negb (p k)) ks = None <-> forallb p ks = true.
Proof.
  induction ks as [|k ks IH]; cbn; [tauto|].
  destruct (p k); cbn; [exact IH | split; discriminate].
Qed.

Lemma find_skips (p : subcheck -> bool) (l1 l2 : list subcheck) :
  forallb p l1 = true ->
  find (fun k => negb (p k)) (l1 ++ l2)%list = find (fun k => negb (p k)) l2.
Proof.
  induction l1 as [|k l1 IH]; cbn; [reflexivity|].
  destruct (p k); cbn; [exact IH | discriminate].
Qed.

Lemma find_not_before (p : subcheck -> bool) (l1 l2 : list subcheck) (x : subcheck) :
  find (fun k => negb (p k)) (l1 ++ l2)%list = Some x ->
  ~ In x l1 ->
  forallb p l1 = true.
Proof.
  induction l1 as [|k l1 IH]; cbn; [reflexivity|].
  destruct (p k) eqn:Hk; cbn.
  - intros H Hn. apply IH; [exact H | tauto].
  - intros H Hn. injection H as ->. tauto.
Qed.

(** The first stopping sub-check is the one the evaluation reaches and
    that does not pass. *)
Lemma first_stopping_reaches (c : Condition) (event : github.Event) (k : subcheck) :
  first_stopping L c event = Some k <->
  reaches L c event k = true /\ passes L c event k = false.
Proof.
  unfold first_stopping, reaches. split.
  - intros H. split.
    + rewrite (order_split k) in H.
      exact (find_not_before _ _ _ _ H (not_before_itself k)).
    + apply find_some in H. destruct H as [_ H].
      now apply negb_true_iff in H.
  - intros [Hr Hp]. rewrite (order_split k), (find_skips _ _ _ Hr).
    cbn. now rewrite Hp.
Qed.

Lemma first_stopping_with_Negate (n : bool) (c : Condition) (event : github.Event) :
  first_stopping L (with_Negate n c) event = first_stopping L c event.
Proof. reflexivity. Qed.

Lemma negatable_with_Negate (n : bool) (c : Condition) (event : github.Event)
    (k : subcheck) :
  negatable L (with_Negate n c) event k = negatable L c event k.
Proof. unfold negatable. now rewrite verdict_with_Negate. Qed.

Lemma stopping_configured (c : Condition) (event : github.Event) (k : subcheck) :
  passes L c event k = false -> configured c k = true.
Proof. unfold passes. now destruct (configured c k). Qed.

End Stopping.

(** A condition that is not negated is the conjunction of its
    sub-checks. *)
Lemma Matches_plain_forallb (L : GoLib) (c : Condition) (event : github.Event) :
  Negate c = false ->
  Matches L c event = forallb (passes L c event) evaluation_order.
Proof.
  intros Hn. rewrite Matches_first_stopping, Hn. unfold first_stopping.
  destruct (find _ evaluation_order) as [k|] eqn:Hf.
  - rewrite andb_false_r. symmetry. apply not_true_is_false. intros Hall.
    apply find_none_forallb in Hall. congruence.
  - symmetry. now apply find_none_forallb.
Qed.

(** X1.  A condition that is not negated matches exactly when every
    configured sub-check succeeds: [Matches] is the conjunction of the
    sub-checks. *)
Theorem Matches_plain_is_conjunction (L : GoLib) (c : Condition) (event : github.Event) :
  Negate c = false ->
  Matches L c event = forallb (passes L c event) evaluation_order
  /\ (Matches L c event = true <->
      forall k, configured c k = true -> verdict_of L c event k = Succeeds).
Proof.
  intros Hn.
  assert (Heq := Matches_plain_forallb L c event Hn).
  split; [exact Heq|].
  rewrite Heq, forallb_forall. split.
  - intros H k Hc. specialize (H k (all_in_order k)). unfold passes in H.
    rewrite Hc in H. cbn in H. now destruct (verdict_of L c event k).
  - intros H k _. unfold passes. destruct (configured c k) eqn:Hc; [|reflexivity].
    now rewrite (H k Hc).
Qed.

(** The condition on type and action of [TestFilter_string], on an event
    of that type whose payload has that action. *)
Lemma Matches_plain_is_conjunction_witness :
  Matches GoStd.lib (cond_Type_PayloadAction "IssuesEvent" "OPENED")
    {| github.Type_ := Some "IssuesEvent"; github.Public := None;
       github.RawPayload := Some payload_opened;
       github.Repo := None; github.Org := None |}
  = true.
Proof.
  refine (eq_trans
            (proj1 (Matches_plain_is_conjunction GoStd.lib
                      (cond_Type_PayloadAction "IssuesEvent" "OPENED") _ eq_refl))
            _).
  vm_compute. reflexivity.
Defined.

(** X2.  A negated condition matches exactly when the evaluation reaches
    a configured sub-check that fails its comparison on present data, or
    an ID sub-check whose reference is nil.  In particular it does not
    match when every configured sub-check succeeds, and the negated zero
    condition matches no event. *)
Theorem Matches_negated_iff (L : GoLib) (c : Condition) (event : github.Event) :
  Negate c = true ->
  (Matches L c event = true <->
   exists k, reaches L c event k = true
             /\ configured c k = true
             /\ (verdict_of L c event k = Fails
                 \/ (verdict_of L c event k = DataAbsent /\ payload_dependent k = false))).
Proof.
  intros Hn. rewrite Matches_first_stopping, Hn. split.
  - destruct (first_stopping L c event) as [k|] eqn:Hf; [|discriminate].
    rewrite andb_true_r. intros Hneg. exists k.
    apply first_stopping_reaches in Hf. destruct Hf as [Hr Hp].
    split; [exact Hr|]. split; [exact (stopping_configured L c event k Hp)|].
    unfold negatable in Hneg. unfold passes in Hp.
    rewrite (stopping_configured L c event k Hp) in Hp. cbn in Hp.
    destruct (verdict_of L c event k); try discriminate.
    + now left.
    + right. split; [reflexivity|]. now apply negb_true_iff in Hneg.
  - intros (k & Hr & Hc & Hv).
    assert (Hp : passes L c event k = false).
    { unfold passes. rewrite Hc. cbn. destruct Hv as [-> | [-> _]]; reflexivity. }
    rewrite (proj2 (first_stopping_reaches L c event k) (conj Hr Hp)).
    rewrite andb_true_r. unfold negatable.
    destruct Hv as [-> | [-> ->]]; reflexivity.
Qed.

(** A negated condition on the type, and an event of another type. *)
Lemma Matches_negated_iff_witness :
  Matches GoStd.lib (set_Negate (cond_Type "NonExistentEvent"))
    (event_of_type "IssuesEvent" None) = true.
Proof.
  apply (proj2 (Matches_negated_iff GoStd.lib (set_Negate (cond_Type "NonExistentEvent"))
                  (event_of_type "IssuesEvent" None) eq_refl)).
  exists SubType. repeat split. now left.
Defined.

(** X3.  Negation law for any number of sub-checks: when every
    configured sub-check is negatable on the event (its data is present
    and its pattern compiles, or it is an ID sub-check), the negated
    condition matches exactly when the plain one does not. *)
Theorem Matches_negation_law (L : GoLib) (c : Condition) (event : github.Event) :
  (forall k, configured c k = true -> negatable L c event k = true) ->
  Matches L (with_Negate true c) event = negb (Matches L (with_Negate false c) event).
Proof.
  intros H. rewrite !Matches_first_stopping, !first_stopping_with_Negate.
  destruct (first_stopping L c event) as [k|] eqn:Hf; [|reflexivity].
  rewrite !negatable_with_Negate.
  apply first_stopping_reaches in Hf. destruct Hf as [_ Hp].
  rewrite (H k (stopping_configured L c event k Hp)). reflexivity.
Qed.

(** Type and action are configured; the event has a type and a payload
    with an action. *)
Lemma Matches_negation_law_witness :
  Matches GoStd.lib (with_Negate true (cond_Type_PayloadAction "IssuesEvent" "closed"))
    {| github.Type_ := Some "IssuesEvent"; github.Public := None;
       github.RawPayload := Some payload_opened;
       github.Repo := None; github.Org := None |}
  = negb (Matches GoStd.lib
            (with_Negate false (cond_Type_PayloadAction "IssuesEvent" "closed"))
            {| github.Type_ := Some "IssuesEvent"; github.Public := None;
               github.RawPayload := Some payload_opened;
               github.Repo := None; github.Org := None |}).
Proof.
  apply Matches_negation_law.
  intros k _. destruct k; vm_compute; reflexivity.
Defined.

(** X4.  A condition and its negation never both match an event; neither
    matches exactly when the first sub-check that stops the evaluation is
    a payload sub-check without a decodable payload or a regexp sub-check
    with a malformed pattern. *)
Theorem Matches_never_both (L : GoLib) (c : Condition) (event : github.Event) :
  Matches L (with_Negate true c) event && Matches L (with_Negate false c) event = false
  /\ (Matches L (with_Negate true c) event = false
      /\ Matches L (with_Negate false c) event = false
      <-> exists k, first_stopping L c event = Some k
                    /\ negatable L c event k = false).
Proof.
  rewrite !Matches_first_stopping, !first_stopping_with_Negate.
  destruct (first_stopping L c event) as [k|] eqn:Hf.
  - rewrite !negatable_with_Negate. cbn [Negate with_Negate].
    rewrite andb_true_r, !andb_false_r. split; [reflexivity|]. split.
    + intros [Hneg _]. now exists k.
    + intros (k' & Hk & Hneg). injection Hk as <-. now split.
  - cbn. split; [reflexivity|]. split.
    + intros [_ H]. discriminate.
    + intros (k & Hk & _). discriminate.
Qed.

(** ** What [Matches] reads *)

Section Frame.

Variable L : GoLib.

Lemma verdict_same_data (c : Condition) (e e' : github.Event) (k : subcheck) :
  same_data k e e' -> verdict_of L c e k = verdict_of L c e' k.
Proof.
  destruct k; cbn [same_data verdict_of]; unfold on_payload; intros H;
    try (now rewrite H).
  - unfold organization_read in H.
    destruct (github.Org e), (github.Org e'); cbn in *; congruence.
  - unfold repository_read in H.
    destruct (github.Repo e), (github.Repo e'); cbn in *; congruence.
Qed.

Lemma verdict_same_fields (c c' : Condition) (e : github.Event) (k : subcheck) :
  same_fields k c c' ->
  configured c k = configured c' k /\ verdict_of L c e k = verdict_of L c' e k.
Proof.
  destruct k; cbn [same_fields configured verdict_of]; intros H;
    try (now rewrite H).
  destruct H as [H H']. now rewrite H, H'.
Qed.

Lemma single_plain (c : Condition) (k : subcheck) : Negate (single c k) = false.
Proof. now destruct k. Qed.

(** The condition of one sub-check matches when the sub-check passes. *)
Lemma Matches_single (c : Condition) (e : github.Event) (k : subcheck) :
  Matches L (single c k) e = passes L c e k.
Proof.
  rewrite (Matches_plain_forallb L _ e (single_plain c k)).
  destruct k; unfold passes; cbn; rewrite ?andb_true_r; reflexivity.
Qed.

Lemma forallb_passes_split (c : Condition) (e : github.Event) (ks : list subcheck) :
  forallb (passes L c e) ks
  = forallb (fun c' => Matches L c' e) (map (single c) (filter (configured c) ks)).
Proof.
  induction ks as [|k ks IH]; [reflexivity|].
  cbn [forallb filter]. destruct (configured c k) eqn:Hc.
  - cbn [map forallb]. now rewrite Matches_single, IH.
  - rewrite <- IH. unfold passes at 1. now rewrite Hc.
Qed.

End Frame.

(** X5.  [Matches] reads of the event only what the configured
    sub-checks read: the type for the type sub-check, the raw payload for
    the payload sub-checks, the visibility, and for an ID sub-check
    whether the reference is nil and its ID.  Two events that agree on
    these are matched alike; a nil type, visibility or ID counts as the
    zero value. *)
Theorem Matches_reads_only_configured (L : GoLib) (c : Condition) (e e' : github.Event) :
  (forall k, configured c k = true -> same_data k e e') ->
  Matches L c e = Matches L c e'.
Proof.
  intros H. unfold Matches. rewrite !Matches_flow_sequence.
  assert (Hk : forall k, check L k c e = check L k c e').
  { intros k. rewrite !check_verdict. destruct (configured c k) eqn:Hc; [|reflexivity].
    now rewrite (verdict_same_data L c e e' k (H k Hc)). }
  assert (Hs : forall ks later, sequence L c e ks later = sequence L c e' ks later).
  { intros ks later. induction ks as [|k ks IH]; [reflexivity|].
    change (check L k c e ;; sequence L c e ks later
            = check L k c e' ;; sequence L c e' ks later).
    now rewrite Hk, IH. }
  now rewrite Hs.
Qed.

(** A condition on the type alone does not tell an event without payload
    from one of the same type that has a payload, a visibility and an
    organization. *)
Lemma Matches_reads_only_configured_witness :
  Matches GoStd.lib (cond_Type "IssuesEvent") (event_of_type "IssuesEvent" None)
  = Matches GoStd.lib (cond_Type "IssuesEvent")
      {| github.Type_ := Some "IssuesEvent"; github.Public := Some true;
         github.RawPayload := Some payload_opened; github.Repo := None;
         github.Org := Some {| github.Organization_ID := Some 7%Z |} |}.
Proof.
  apply Matches_reads_only_configured.
  intros k Hk. destruct k; try discriminate Hk. reflexivity.
Defined.

(** X6.  Configuring more sub-checks of a condition that is not negated
    can only narrow it: if [c'] is not negated either and holds the
    fields of every sub-check configured in [c], every event that [c']
    matches is matched by [c]. *)
Theorem Matches_plain_narrows (L : GoLib) (c c' : Condition) (event : github.Event) :
  Negate c = false ->
  Negate c' = false ->
  (forall k, configured c k = true -> same_fields k c c') ->
  Matches L c' event = true ->
  Matches L c event = true.
Proof.
  intros Hn Hn' H.
  rewrite (Matches_plain_forallb L c event Hn), (Matches_plain_forallb L c' event Hn').
  rewrite !forallb_forall. intros Hall k Hin. specialize (Hall k Hin).
  unfold passes in *. destruct (configured c k) eqn:Hc; [|reflexivity].
  destruct (verdict_same_fields L c c' event k (H k Hc)) as [Hc' Hv].
  rewrite Hc in Hc'. rewrite <- Hc', <- Hv in Hall. exact Hall.
Qed.

(** The condition on the type, and the one on type and action. *)
Lemma Matches_plain_narrows_witness :
  Matches GoStd.lib (cond_Type "IssuesEvent")
    {| github.Type_ := Some "IssuesEvent"; github.Public := None;
       github.RawPayload := Some payload_opened;
       github.Repo := None; github.Org := None |}
  = true.
Proof.
  apply (Matches_plain_narrows GoStd.lib (cond_Type "IssuesEvent")
           (cond_Type_PayloadAction "IssuesEvent" "opened")).
  - reflexivity.
  - reflexivity.
  - intros k Hk. destruct k; try discriminate Hk. reflexivity.
  - vm_compute. reflexivity.
Defined.

(** For negated conditions the narrowing fails: the negated condition on
    the type does not match an event of that type, and matches it once an
    action that the payload does not have is configured as well. *)
Lemma Matches_negated_widens :
  Matches GoStd.lib (set_Negate (cond_Type "IssuesEvent"))
    {| github.Type_ := Some "IssuesEvent"; github.Public := None;
       github.RawPayload := Some payload_opened;
       github.Repo := None; github.Org := None |} = false
  /\ Matches GoStd.lib (set_Negate (cond_Type_PayloadAction "IssuesEvent" "closed"))
       {| github.Type_ := Some "IssuesEvent"; github.Public := None;
          github.RawPayload := Some payload_opened;
          github.Repo := None; github.Org := None |} = true.
Proof. vm_compute. split; reflexivity. Qed.

(** X7.  A condition that is not negated matches the events matched by
    the filter that has one condition for each of its configured
    sub-checks. *)
Theorem Matches_plain_as_Filter (L : GoLib) (c : Condition) (event : github.Event) :
  Negate c = false ->
  Matches L c event = Filter_Matches L (split_Condition c) event.
Proof.
  intros Hn. rewrite (Matches_plain_forallb L c event Hn).
  unfold Filter_Matches, split_Condition. cbn [Conditions].
  rewrite Filter_range_forallb. apply forallb_passes_split.
Qed.

(** The condition on type and action against the filter of the condition
    on the type and the condition on the action. *)
Lemma Matches_plain_as_Filter_witness :
  Matches GoStd.lib (cond_Type_PayloadAction "IssuesEvent" "opened")
    (event_of_payload payload_opened)
  = Filter_Matches GoStd.lib
      {| Conditions := [cond_Type "IssuesEvent"; cond_PayloadAction "opened"] |}
      (event_of_payload payload_opened).
Proof.
  exact (Matches_plain_as_Filter GoStd.lib
           (cond_Type_PayloadAction "IssuesEvent" "opened")
           (event_of_payload payload_opened) eq_refl).
Defined.

(** ** Composing filters *)

Lemma forallb_Permutation (A : Type) (p : A -> bool) (l l' : list A) :
  Permutation l l' -> forallb p l = forallb p l'.
Proof.
  induction 1 as [|x l l' _ IH|x y l|l l' l'' _ IH1 _ IH2]; cbn.
  - reflexivity.
  - now rewrite IH.
  - now destruct (p x), (p y).
  - now rewrite IH1.
Qed.

(** X8.  The filter of two lists of conditions put end to end matches
    when both filters do, and the order of the conditions of a filter
    does not change what it matches. *)
Theorem Filter_Matches_composes (L : GoLib) (event : github.Event) :
  (forall cs1 cs2,
      Filter_Matches L {| Conditions := (cs1 ++ cs2)%list |} event
      = Filter_Matches L {| Conditions := cs1 |} event
        && Filter_Matches L {| Conditions := cs2 |} event)
  /\ (forall cs cs',
        Permutation cs cs' ->
        Filter_Matches L {| Conditions := cs |} event
        = Filter_Matches L {| Conditions := cs' |} event).
Proof.
  unfold Filter_Matches. cbn [Conditions]. split.
  - intros cs1 cs2. rewrite !Filter_range_forallb. apply forallb_app.
  - intros cs cs' Hp. rewrite !Filter_range_forallb. now apply forallb_Permutation.
Qed.

(** ** The earlier revisions *)

Lemma Rev1_Matches_current (L : GoLib) (c : Rev1.Condition) (event : github.Event) :
  Rev1.Matches L c event = Matches L (Rev1_to_current c) event.
Proof.
  unfold Rev1.Matches, Rev1.Matches_flow, Matches, Matches_flow,
    check_Type, check_PayloadAction, check_PayloadIssueLabel,
    check_PayloadIssueMilestoneTitle, check_PayloadIssueTitleRegexp,
    check_PayloadIssueBodyRegexp, check_Public, check_OrganizationID,
    check_RepositoryID.
  cbn [Rev1_to_current Negate Type_ PayloadAction PayloadIssueLabel
       PayloadIssueMilestoneTitle PayloadIssueTitleRegexp PayloadIssueBodyRegexp
       ComparePublic Public OrganizationID RepositoryID String.eqb negb].
  cbv zeta. split_tests; reflexivity.
Qed.

(** X9.  The revision without [Negate] is kept by the current one: a
    condition of [ghfilter.go], written in the current revision with
    [Negate] unset and the new fields empty, matches the same events; so
    does a filter. *)
Theorem Rev1_kept_by_current (L : GoLib) (event : github.Event) :
  (forall c, Rev1.Matches L c event = Matches L (Rev1_to_current c) event)
  /\ (forall f,
        Rev1.Filter_Matches L f event
        = Filter_Matches L (Rev1_Filter_to_current f) event).
Proof.
  split; [intros c; apply Rev1_Matches_current|].
  intros [cs]. unfold Rev1.Filter_Matches, Filter_Matches, Rev1_Filter_to_current.
  cbn [Rev1.Conditions Conditions]. rewrite Filter_range_forallb.
  induction cs as [|c cs IH]; [reflexivity|].
  cbn [Rev1.Filter_range map forallb].
  rewrite <- Rev1_Matches_current, <- IH.
  now destruct (Rev1.Matches L c event).
Qed.

Lemma Rev0_Filter_range_existsb (L : GoLib) (cs : list Rev0.Condition)
    (event : github.Event) :
  Rev0.Filter_range L cs event = existsb (fun c => Rev0.Matches L c event) cs.
Proof.
  induction cs as [|c cs IH]; [reflexivity|].
  cbn. rewrite IH. now destruct (Rev0.Matches L c event).
Qed.

(** X10.  In the first revision a filter matches exactly when at least
    one of its conditions does, whatever conditions stand after it; a
    filter without conditions matches no event. *)
Theorem Rev0_Filter_Matches_any (L : GoLib) (f : Rev0.Filter) (event : github.Event) :
  (Rev0.Filter_Matches L f event = true <->
   exists c, In c (Rev0.Conditions f) /\ Rev0.Matches L c event = true)
  /\ (forall pre c post,
        Rev0.Conditions f = (pre ++ c :: post)%list ->
        Rev0.Matches L c event = true ->
        Rev0.Filter_Matches L f event = true)
  /\ Rev0.Filter_Matches L {| Rev0.Conditions := [] |} event = false.
Proof.
  unfold Rev0.Filter_Matches. split; [|split].
  - rewrite Rev0_Filter_range_existsb. apply existsb_exists.
  - intros pre c post Hf Hc. rewrite Hf, Rev0_Filter_range_existsb, existsb_app.
    cbn. rewrite Hc. now rewrite orb_true_r.
  - reflexivity.
Qed.

(** X11.  The case-insensitive revision matches every event the
    case-sensitive one matched with the same condition, and the two agree
    on a condition without action. *)
Theorem Rev0_kept_by_Rev1 (L : GoLib) (c : Rev0.Condition) (event : github.Event) :
  (Rev0.Matches L c event = true -> Rev1.Matches L (Rev0_to_Rev1 c) event = true)
  /\ (Rev0.PayloadAction c = "" ->
      Rev0.Matches L c event = Rev1.Matches L (Rev0_to_Rev1 c) event).
Proof.
  unfold Rev0.Matches, Rev0.Matches_flow, Rev1.Matches, Rev1.Matches_flow.
  cbn [Rev0_to_Rev1 Rev1.Type_ Rev1.PayloadAction Rev1.PayloadIssueLabel
       Rev1.ComparePublic Rev1.Public Rev1.OrganizationID Rev1.RepositoryID
       String.eqb negb].
  split.
  - destruct (negb (Rev0.Type_ c =? "") && negb (github.GetType event =? Rev0.Type_ c));
      [discriminate|].
    cbn [and_then].
    assert (Hrest : forall s : flow,
               match s with Return b => b | Next => true end = true ->
               match s with Return b => b | Next => true end = true) by trivial.
    destruct (negb (Rev0.PayloadAction c =? "")); cbn [and_then]; [|trivial].
    destruct (github.RawPayload event) as [raw|]; [|discriminate].
    destruct (Unmarshal_action L raw) as [a|]; [|discriminate].
    destruct (a =? Rev0.PayloadAction c) eqn:Ha; cbn [negb and_then]; [|discriminate].
    apply String.eqb_eq in Ha. subst a. rewrite String.eqb_refl. cbn [negb and_then].
    trivial.
  - intros Ha. rewrite Ha. reflexivity.
Qed.

(** The action of the payload in the capitals the condition has. *)
Lemma Rev0_kept_by_Rev1_witness :
  Rev1.Matches GoStd.lib (Rev0_to_Rev1 (Rev0_cond_PayloadAction "Opened"))
    (event_of_payload payload_Opened) = true.
Proof.
  apply (proj1 (Rev0_kept_by_Rev1 GoStd.lib (Rev0_cond_PayloadAction "Opened")
                  (event_of_payload payload_Opened))).
  vm_compute. reflexivity.
Defined.

(** The converse fails: the payload says opened, the condition OPENED. *)
Lemma Rev1_matches_more_than_Rev0 :
  Rev0.Matches GoStd.lib (Rev0_cond_PayloadAction "OPENED")
    (event_of_payload payload_opened) = false
  /\ Rev1.Matches GoStd.lib (Rev0_to_Rev1 (Rev0_cond_PayloadAction "OPENED"))
       (event_of_payload payload_opened) = true.
Proof. vm_compute. split; reflexivity. Qed.
